(** * scrapy-do web service (scrapy_do/webservice.py)

    A shallow embedding of the JSON resource nodes of the scrapy-do web
    service, of the Python built-ins they rely on and of the part of
    Twisted they drive, followed by the properties of the HTTP control
    plane stated against that embedding. *)

From Stdlib Require Import ZArith NArith Ascii String DecimalString.
From stdpp Require Import gmap strings list.

Local Open Scope Z_scope.
Set Warnings "-register-all".

(** ** Python values

    [bytes] objects are Rocq strings (one [ascii] per byte), [str] objects
    are lists of Unicode code points. *)

Module Py.

Abbreviation bytes := string (only parsing).
Definition pystr := list N.

(** A [str] literal of the source (ASCII text). *)
Definition text (s : string) : pystr :=
  (fun a => N_of_ascii a) <$> list_ascii_of_string s.

Definition ascii_text (l : list ascii) : string := string_of_list_ascii l.

Definition byte_values (b : bytes) : list N :=
  (fun a => N_of_ascii a) <$> list_ascii_of_string b.

(** *** [bytes.decode('utf-8')], strict error handling

    The well-formed byte sequences are those of the Unicode standard
    (no overlong forms, no surrogates, nothing above U+10FFFF). *)

Definition continuation (lo hi b : N) : bool := ((lo <=? b) && (b <=? hi))%N.

Definition low6 (b : N) : N := N.land b 63.

Fixpoint utf8_points (l : list N) : option pystr :=
  match l with
  | [] => Some []
  | b0 :: t =>
    if (b0 <? 128)%N then cons b0 <$> utf8_points t
    else if ((194 <=? b0) && (b0 <=? 223))%N then
      match t with
      | b1 :: t1 =>
        if continuation 128 191 b1
        then cons (N.lor (N.shiftl (N.land b0 31) 6) (low6 b1)) <$> utf8_points t1
        else None
      | _ => None
      end
    else if ((224 <=? b0) && (b0 <=? 239))%N then
      match t with
      | b1 :: b2 :: t2 =>
        let lo := if (b0 =? 224)%N then 160%N else 128%N in
        let hi := if (b0 =? 237)%N then 159%N else 191%N in
        if continuation lo hi b1 && continuation 128 191 b2
        then cons (N.lor (N.shiftl (N.land b0 15) 12)
                     (N.lor (N.shiftl (low6 b1) 6) (low6 b2)))
               <$> utf8_points t2
        else None
      | _ => None
      end
    else if ((240 <=? b0) && (b0 <=? 244))%N then
      match t with
      | b1 :: b2 :: b3 :: t3 =>
        let lo := if (b0 =? 240)%N then 144%N else 128%N in
        let hi := if (b0 =? 244)%N then 143%N else 191%N in
        if continuation lo hi b1 && continuation 128 191 b2
           && continuation 128 191 b3
        then cons (N.lor (N.shiftl (N.land b0 7) 18)
                     (N.lor (N.shiftl (low6 b1) 12)
                        (N.lor (N.shiftl (low6 b2) 6) (low6 b3))))
               <$> utf8_points t3
        else None
      | _ => None
      end
    else None
  end.

Definition decode_utf8 (b : bytes) : option pystr := utf8_points (byte_values b).

(** *** [str.encode('utf-8')], strict error handling *)

Definition byte_of (n : N) : ascii := ascii_of_N n.

Definition utf8_of_point (c : N) : option (list ascii) :=
  if (c <? 128)%N then Some [byte_of c]
  else if (c <? 2048)%N then
    Some [byte_of (N.lor 192 (N.shiftr c 6)); byte_of (N.lor 128 (low6 c))]
  else if (c <? 65536)%N then
    if ((55296 <=? c) && (c <=? 57343))%N then None
    else Some [byte_of (N.lor 224 (N.shiftr c 12));
               byte_of (N.lor 128 (low6 (N.shiftr c 6)));
               byte_of (N.lor 128 (low6 c))]
  else if (c <? 1114112)%N then
    Some [byte_of (N.lor 240 (N.shiftr c 18));
          byte_of (N.lor 128 (low6 (N.shiftr c 12)));
          byte_of (N.lor 128 (low6 (N.shiftr c 6)));
          byte_of (N.lor 128 (low6 c))]
  else None.

Fixpoint utf8_bytes (s : pystr) : option (list ascii) :=
  match s with
  | [] => Some []
  | c :: r =>
    match utf8_of_point c, utf8_bytes r with
    | Some b, Some br => Some (b ++ br)
    | _, _ => None
    end
  end.

Definition encode_utf8 (s : pystr) : option bytes := ascii_text <$> utf8_bytes s.

(** *** [repr] of a [bytes] object *)

Definition hex_digit (n : N) : ascii :=
  byte_of (if (n <? 10)%N then 48 + n else 87 + n)%N.

Definition hex2 (n : N) : list ascii :=
  [hex_digit (N.land (N.shiftr n 4) 15); hex_digit (N.land n 15)].

Definition hex4 (n : N) : list ascii :=
  hex2 (N.land (N.shiftr n 8) 255) ++ hex2 (N.land n 255).

Definition backslash : ascii := byte_of 92.
Definition single_quote : ascii := byte_of 39.
Definition double_quote : ascii := byte_of 34.

Definition has_byte (q : ascii) (l : list ascii) : bool :=
  existsb (fun a => bool_decide (a = q)) l.

Definition repr_byte (quote : ascii) (a : ascii) : list ascii :=
  let c := N_of_ascii a in
  if bool_decide (a = quote) || bool_decide (a = backslash) then [backslash; a]
  else if (c =? 9)%N then [backslash; "t"%char]
  else if (c =? 10)%N then [backslash; "n"%char]
  else if (c =? 13)%N then [backslash; "r"%char]
  else if ((c <? 32) || (127 <=? c))%N then backslash :: "x"%char :: hex2 c
  else [a].

Definition repr_bytes (b : bytes) : string :=
  let l := list_ascii_of_string b in
  let quote :=
    if has_byte single_quote l && negb (has_byte double_quote l)
    then double_quote else single_quote in
  ascii_text ("b"%char :: quote :: (flat_map (repr_byte quote) l ++ [quote])).

(** *** The values [json.dumps] accepts

    A [float] is kept as the text [json.dumps] emits for it
    ([float.__repr__], or [NaN], [Infinity], [-Infinity]); a [dict] keeps
    its insertion order and has [str] keys. *)

Inductive pyval :=
| PNone
| PBool (b : bool)
| PInt (z : Z)
| PFloat (json_text : string)
| PStr (s : pystr)
| PList (l : list pyval)
| PDict (d : list (pystr * pyval)).

Definition pydict := list (pystr * pyval).

Definition type_name (v : pyval) : string :=
  match v with
  | PNone => "NoneType"
  | PBool _ => "bool"
  | PInt _ => "int"
  | PFloat _ => "float"
  | PStr _ => "str"
  | PList _ => "list"
  | PDict _ => "dict"
  end.

(** [d[k]] as an option, the first binding of the key. *)
Fixpoint dict_get (k : pystr) (d : pydict) : option pyval :=
  match d with
  | [] => None
  | (k', v) :: r => if bool_decide (k' = k) then Some v else dict_get k r
  end.

(** [d[k] = v]: an existing key keeps its place, a new key goes last. *)
Fixpoint dict_setitem (k : pystr) (v : pyval) (d : pydict) : pydict :=
  match d with
  | [] => [(k, v)]
  | (k', v') :: r =>
    if bool_decide (k' = k) then (k, v) :: r else (k', v') :: dict_setitem k v r
  end.

(** [{**a, **b}]: the items of [b] are stored into a copy of [a] in order. *)
Definition dict_merge (a b : pydict) : pydict :=
  fold_left (fun acc kv => dict_setitem kv.1 kv.2 acc) b a.

(** *** [json.dumps] with its default arguments, as ASCII bytes

    With [ensure_ascii] every character outside [' '..'~'] is escaped, so
    the text is pure ASCII and its UTF-8 encoding is the same sequence of
    bytes; the embedding produces those bytes directly. *)

Definition json_char (c : N) : list ascii :=
  if (c =? 34)%N then [backslash; double_quote]
  else if (c =? 92)%N then [backslash; backslash]
  else if (c =? 10)%N then [backslash; "n"%char]
  else if (c =? 13)%N then [backslash; "r"%char]
  else if (c =? 9)%N then [backslash; "t"%char]
  else if (c =? 8)%N then [backslash; "b"%char]
  else if (c =? 12)%N then [backslash; "f"%char]
  else if ((32 <=? c) && (c <=? 126))%N then [byte_of c]
  else if (c <? 65536)%N then backslash :: "u"%char :: hex4 c
  else
    let v := (c - 65536)%N in
    let s1 := N.lor 55296 (N.land (N.shiftr v 10) 1023) in
    let s2 := N.lor 56320 (N.land v 1023) in
    (backslash :: "u"%char :: hex4 s1) ++ (backslash :: "u"%char :: hex4 s2).

Definition json_string (s : pystr) : string :=
  ascii_text (double_quote :: (flat_map json_char s ++ [double_quote])).

Definition decimal (z : Z) : string := NilZero.string_of_int (Z.to_int z).

Fixpoint json_dumps (v : pyval) : string :=
  match v with
  | PNone => "null"
  | PBool true => "true"
  | PBool false => "false"
  | PInt z => decimal z
  | PFloat t => t
  | PStr s => json_string s
  | PList l =>
    "[" +:+
    (fix elements (l : list pyval) : string :=
       match l with
       | [] => EmptyString
       | [x] => json_dumps x
       | x :: r => json_dumps x +:+ ", " +:+ elements r
       end) l +:+ "]"
  | PDict d =>
    "{" +:+
    (fix items (d : list (pystr * pyval)) : string :=
       match d with
       | [] => EmptyString
       | [(k, x)] => json_string k +:+ ": " +:+ json_dumps x
       | (k, x) :: r => json_string k +:+ ": " +:+ json_dumps x +:+ ", " +:+ items r
       end) d +:+ "}"
  end.

(** [needle in haystack] on [str] objects. *)
Fixpoint is_prefix (p s : pystr) : bool :=
  match p, s with
  | [], _ => true
  | a :: p', b :: s' => bool_decide (a = b) && is_prefix p' s'
  | _ :: _, [] => false
  end.

Fixpoint contains (needle hay : pystr) : bool :=
  is_prefix needle hay ||
  match hay with
  | [] => false
  | _ :: r => contains needle r
  end.

End Py.

Import Py.

Example decode_ascii : decode_utf8 "id1" = Some (text "id1").
Proof. reflexivity. Qed.

Example decode_euro :
  decode_utf8 (ascii_text [byte_of 226; byte_of 130; byte_of 172]) = Some [8364%N].
Proof. reflexivity. Qed.

Example decode_invalid : decode_utf8 (ascii_text [byte_of 255]) = None.
Proof. reflexivity. Qed.

Example repr_bytes_id : repr_bytes "id" = "b'id'"%string.
Proof. reflexivity. Qed.

(** A piece of JSON text between double quotes. *)
Definition quoted (s : string) : string :=
  String double_quote (s +:+ String double_quote EmptyString).

Example json_dumps_small :
  json_dumps (PDict [(text "status", PStr (text "ok"));
                     (text "spiders", PList [PStr (text "a"); PInt (-3)])])
  = "{" +:+ quoted "status" +:+ ": " +:+ quoted "ok" +:+ ", " +:+
    quoted "spiders" +:+ ": [" +:+ quoted "a" +:+ ", -3]}".
Proof. reflexivity. Qed.

(** ** Exceptions and effects *)

(** The instances of [Exception] the module meets.  [MissingArgument] is
    the error of the argument validator; [AttributeError] is what a
    method call on an object that lacks the method raises; [OtherError]
    stands for any other exception, by the text [str] gives for it (an
    error of the Controller, of an enumeration lookup, of a module
    loader). *)
Inductive exn :=
| KeyError (key : bytes)
| UnicodeDecodeError (object : bytes)
| UnicodeEncodeError (object : pystr)
| TypeError (message : pystr)
| AttributeError (message : pystr)
| NotImplementedError
| MissingArgument (names : list bytes)
| OtherError (message : pystr).

Inductive result (A : Type) :=
| Ret (a : A)
| Raise (e : exn).
Arguments Ret {A} a.
Arguments Raise {A} e.

(** Computations over a mutable state that may raise; what was done to
    the state before an exception stays done. *)
Definition M (S A : Type) : Type := S -> result A * S.

Definition ret {S A} (a : A) : M S A := fun s => (Ret a, s).
Definition raise {S A} (e : exn) : M S A := fun s => (Raise e, s).
Definition lift {S A} (r : result A) : M S A := fun s => (r, s).

Definition bind {S A B} (m : M S A) (k : A -> M S B) : M S B :=
  fun s =>
    match m s with
    | (Ret a, s') => k a s'
    | (Raise e, s') => (Raise e, s')
    end.

Notation "x <- m ;; k" := (bind m (fun x => k))
  (at level 100, m at next level, right associativity).
Notation "m >> k" := (bind m (fun _ => k))
  (at level 100, right associativity).

(** [try: m except ...: h]; [h e = None] when no clause matches [e]. *)
Definition try_except {S A} (m : M S A) (h : exn -> option (M S A)) : M S A :=
  fun s =>
    match m s with
    | (Ret a, s') => (Ret a, s')
    | (Raise e, s') =>
      match h e with
      | Some k => k s'
      | None => (Raise e, s')
      end
    end.

(** ** The request and its arguments *)

(** [request.args]: every name present has one or more values. *)
Record Request := {
  method : bytes;
  args : gmap bytes (bytes * list bytes);
}.

(** [args[name]] *)
Definition getitem (a : gmap bytes (bytes * list bytes)) (name : bytes)
  : result (bytes * list bytes) :=
  match a !! name with
  | Some v => Ret v
  | None => Raise (KeyError name)
  end.

(** [name in args] *)
Definition has_arg (a : gmap bytes (bytes * list bytes)) (name : bytes) : bool :=
  bool_decide (is_Some (a !! name)).

(** [value.decode('utf-8')] *)
Definition decode (value : bytes) : result pystr :=
  match decode_utf8 value with
  | Some s => Ret s
  | None => Raise (UnicodeDecodeError value)
  end.

(** Modelled from the spec: [arg_require_all] of scrapy_do/utils.py, whose
    text is missing.  "Given the request's argument mapping and a list
    of required names, fails with a MissingArgument error (carrying the
    missing name) if any required-all name is absent"; the first absent
    name of the list is the one carried. *)
Definition arg_require_all (a : gmap bytes (bytes * list bytes))
    (names : list bytes) : result unit :=
  match List.find (fun n => negb (has_arg a n)) names with
  | Some n => Raise (MissingArgument [n])
  | None => Ret tt
  end.

(** Modelled from the spec: [arg_require_any] of scrapy_do/utils.py, whose
    text is missing.  "Given a list of alternative names, fails with a
    MissingArgument error if none of the required-any names is present";
    the error carries the alternatives. *)
Definition arg_require_any (a : gmap bytes (bytes * list bytes))
    (names : list bytes) : result unit :=
  if existsb (has_arg a) names then Ret tt else Raise (MissingArgument names).

(** [sep.join(l)] *)
Fixpoint join (sep : pystr) (l : list pystr) : pystr :=
  match l with
  | [] => []
  | [x] => x
  | x :: r => x ++ sep ++ join sep r
  end.

(** Modelled from the spec: the text [str] gives for a MissingArgument
    error, whose class is missing with scrapy_do/utils.py, "a msg
    mentioning the missing argument name". *)
Definition missing_argument_text (names : list bytes) : pystr :=
  text "Missing argument: " ++ join (text ", ") (text <$> names).

(** ** What the module takes from outside *)

(** The classes a module name resolves to: the JSON nodes of this file, or
    a class defined elsewhere. *)
Inductive module_class :=
| Status
| PushProject
| ListProjects
| ListSpiders
| ScheduleJob
| ListJobs
| CancelJob
| External (qualname : pystr).

(** The text of a codec error (byte, position and reason as the codec
    reports them); the job status enumeration of scrapy_do/schedule.py,
    with [JobStatus[name]] as the member of that name or the error of the
    lookup; its jobs, with [job.to_dict()]; and [get_object] of
    scrapy_do/utils.py, the class of a name or the error of the import. *)
Class Environment := {
  decode_error_text : bytes -> pystr;
  encode_error_text : pystr -> pystr;
  JobStatus : Type;
  JobStatus_getitem : pystr -> result JobStatus;
  Job : Type;
  to_dict : Job -> pyval;
  get_object : pystr -> result module_class;
}.

Section WebService.

Context {environment : Environment}.

(** [str(e)] *)
Definition py_str (e : exn) : pystr :=
  match e with
  | KeyError k => text (repr_bytes k)
  | UnicodeDecodeError b => decode_error_text b
  | UnicodeEncodeError s => encode_error_text s
  | TypeError m => m
  | AttributeError m => m
  | NotImplementedError => []
  | MissingArgument names => missing_argument_text names
  | OtherError m => m
  end.

(** ** The Controller *)

(** A Deferred returned by the Controller has its result already, or gets
    it after the handler has returned to the reactor.  A Deferred that
    never fires leaves its request open for good and is not modelled. *)
Inductive deferred :=
| Fired (r : result pyval)
| FiresLater (r : result pyval).

Record Controller := {
  push_project : pystr -> bytes -> result deferred;
  get_projects : result pyval;
  get_spiders : pystr -> result pyval;
  schedule_job : pystr -> pystr -> pystr -> result pyval;
  get_jobs : JobStatus -> result (list Job);
  get_job : pystr -> result Job;
  cancel_job : pystr -> result deferred;
}.

Inductive call :=
| CPushProject (name : pystr) (archive : bytes)
| CGetProjects
| CGetSpiders (project : pystr)
| CScheduleJob (project spider when : pystr)
| CGetJobs (status : JobStatus)
| CGetJob (identifier : pystr)
| CCancelJob (identifier : pystr).

(** ** The response under construction and the reactor *)

(** What the module passes as the value of a header: a [str], or the
    [int] that [len] returns. *)
Inductive hvalue :=
| HStr (s : string)
| HInt (n : Z).

(** The error of a header value that is an [int]. *)
Definition int_header_error : exn :=
  AttributeError (text "'int' object has no attribute 'splitlines'").

(** A generator of [inlineCallbacks] parked at its [yield], with the
    result its Deferred will fire with. *)
Inductive generator :=
| AwaitPushProject (request : Request) (r : result pyval)
| AwaitCancelJob (request : Request) (r : result pyval).

Record world := {
  code : Z;                        (* response code *)
  headers : gmap string hvalue;    (* response headers *)
  written : list bytes;            (* request.write, oldest first *)
  finished : nat;                  (* calls of request.finish *)
  calls : list call;               (* calls of the Controller, oldest first *)
  suspended : list generator;      (* generators waiting for a Deferred *)
  unhandled : list exn;            (* errors left in a dropped Deferred *)
}.

Definition fresh : world :=
  {| code := 200; headers := ∅; written := []; finished := 0%nat;
     calls := []; suspended := []; unhandled := [] |}.

Definition setResponseCode (c : Z) : M world unit := fun w =>
  (Ret tt, {| code := c; headers := headers w; written := written w;
              finished := finished w; calls := calls w;
              suspended := suspended w; unhandled := unhandled w |}).

(** [request.setHeader(name, value)] of Twisted, whose header values are
    [bytes] or [str].  The value is cleaned of line breaks with
    [value.splitlines()] before it is stored; an [int] has no such
    method, so the call raises AttributeError and stores nothing. *)
Definition setHeader (name : string) (v : hvalue) : M world unit := fun w =>
  match v with
  | HStr _ =>
    (Ret tt, {| code := code w; headers := <[name := v]> (headers w);
                written := written w; finished := finished w; calls := calls w;
                suspended := suspended w; unhandled := unhandled w |})
  | HInt _ => (Raise int_header_error, w)
  end.

Definition write (data : bytes) : M world unit := fun w =>
  (Ret tt, {| code := code w; headers := headers w;
              written := written w ++ [data]; finished := finished w;
              calls := calls w; suspended := suspended w;
              unhandled := unhandled w |}).

Definition finish : M world unit := fun w =>
  (Ret tt, {| code := code w; headers := headers w; written := written w;
              finished := S (finished w); calls := calls w;
              suspended := suspended w; unhandled := unhandled w |}).

(** A call of the Controller: logged, then its outcome. *)
Definition invoke {A} (c : call) (r : result A) : M world A := fun w =>
  (r, {| code := code w; headers := headers w; written := written w;
         finished := finished w; calls := calls w ++ [c];
         suspended := suspended w; unhandled := unhandled w |}).

Definition suspend (g : generator) : M world unit := fun w =>
  (Ret tt, {| code := code w; headers := headers w; written := written w;
              finished := finished w; calls := calls w;
              suspended := suspended w ++ [g]; unhandled := unhandled w |}).

(** [@inlineCallbacks]: an exception that leaves the generator ends in the
    Deferred the decorated function returns; the callers here drop it. *)
Definition inlineCallbacks (g : M world unit) : M world unit := fun w =>
  match g w with
  | (Ret _, w') => (Ret tt, w')
  | (Raise e, w') =>
    (Ret tt, {| code := code w'; headers := headers w'; written := written w';
                finished := finished w'; calls := calls w';
                suspended := suspended w'; unhandled := unhandled w' ++ [e] |})
  end.

(** ** JsonResource *)

Definition newline : string := String (byte_of 10) EmptyString.

(** [render_json]: the second header is given [len(json_data)], an
    [int]. *)
Definition render_json (data : pyval) : M world bytes :=
  let json_data := json_dumps data +:+ newline in
  setHeader "Content-Type" (HStr "application/json") >>
  setHeader "Content-Length" (HInt (Z.of_nat (String.length json_data))) >>
  ret json_data.

(** [twisted.web.server.NOT_DONE_YET] *)
Definition NOT_DONE_YET : pyval := PInt 1.

(** [data == NOT_DONE_YET] *)
Definition is_NOT_DONE_YET (data : pyval) : bool :=
  match data with
  | PInt z => (z =? 1)
  | PBool b => b
  | PFloat t => bool_decide (t = "1.0"%string)
  | _ => false
  end.

(** [{**{'status': 'ok'}, **data}] *)
Definition unpack_over (base : pydict) (data : pyval) : result pydict :=
  match data with
  | PDict d => Ret (dict_merge base d)
  | _ => Raise (TypeError (text ("'" +:+ type_name data +:+ "' object is not a mapping")))
  end.

Definition error_envelope (msg : pystr) : pyval :=
  PDict [(text "status", PStr (text "error")); (text "msg", PStr msg)].

(** What [render] hands back to the framework: the body, or the value
    that compared equal to [NOT_DONE_YET]. *)
Inductive rendered :=
| Body (b : bytes)
| Unfinished (data : pyval).

(** [JsonResource.render].  [super().render(request)] is Twisted's
    dispatch to the method [render_<METHOD>] of the node, passed here as
    [render_METHOD]. *)
Definition JsonResource_render (render_METHOD : Request -> M world pyval)
    (request : Request) : M world rendered :=
  try_except
    (data <- render_METHOD request ;;
     if is_NOT_DONE_YET data then ret (Unfinished data)
     else
       data <- lift (unpack_over [(text "status", PStr (text "ok"))] data) ;;
       b <- render_json (PDict data) ;;
       ret (Body b))
    (fun e => Some (
       setResponseCode 400 >>
       (b <- render_json (error_envelope (py_str e)) ;;
        ret (Body b)))).

(** ** The resource tree *)

(** What the module reads from the configuration: [get_bool('web', 'auth',
    False)], [get_string('web', 'auth-db')], [get_options('web-modules')]. *)
Record Config := {
  web_auth : bool;
  web_auth_db : pystr;
  web_modules : list (pystr * pystr);
}.

(** A child of the tree: [Home()], or [mod_class(self)] holding the
    identity of the tree that made it. *)
Inductive node :=
| HomeNode
| ModuleNode (cls : module_class) (parent_oid : nat).

Record WebApp := {
  oid : nat;
  config : Config;
  controller : Controller;
  children : gmap string node;
}.

(** A JSON node as its handlers see it. *)
Record JsonResource := {
  parent : WebApp;
}.

(** ** The handlers *)

Definition Home_render_GET (request : Request) : bytes :=
  "<html>Hello, world!</html>".

(** [psutil.Process(os.getpid())]: the figures sampled, or the error of
    the sampling. *)
Record process := {
  rss : Z;
  cpu_percent : string;
}.

Definition Status_render_GET (p : result process) (self : JsonResource)
    (request : Request) : M world pyval :=
  p <- lift p ;;
  let resp := PDict [(text "memory-usage", PInt (rss p));
                     (text "cpu-usage", PFloat (cpu_percent p))] in
  ret resp.

Definition ListProjects_render_GET (self : JsonResource) (request : Request)
  : M world pyval :=
  projects <- invoke CGetProjects (get_projects (controller (parent self))) ;;
  ret (PDict [(text "projects", projects)]).

Definition ListSpiders_render_GET (self : JsonResource) (request : Request)
  : M world pyval :=
  lift (arg_require_all (args request) ["project"]) >>
  (v <- lift (getitem (args request) "project") ;;
   project <- lift (decode v.1) ;;
   spiders <- invoke (CGetSpiders project)
                (get_spiders (controller (parent self)) project) ;;
   ret (PDict [(text "project", PStr project); (text "spiders", spiders)])).

Definition ScheduleJob_render_POST (self : JsonResource) (request : Request)
  : M world pyval :=
  lift (arg_require_all (args request) ["project"; "spider"; "when"]) >>
  (v <- lift (getitem (args request) "project") ;;
   project <- lift (decode v.1) ;;
   v <- lift (getitem (args request) "spider") ;;
   spider <- lift (decode v.1) ;;
   v <- lift (getitem (args request) "when") ;;
   when <- lift (decode v.1) ;;
   job_id <- invoke (CScheduleJob project spider when)
               (schedule_job (controller (parent self)) project spider when) ;;
   ret (PDict [(text "identifier", job_id)])).

Definition ListJobs_render_GET (self : JsonResource) (request : Request)
  : M world pyval :=
  lift (arg_require_any (args request) ["status"; "id"]) >>
  (jobs <-
     (if has_arg (args request) "status" then
        v <- lift (getitem (args request) "status") ;;
        name <- lift (decode v.1) ;;
        status <- lift (JobStatus_getitem name) ;;
        invoke (CGetJobs status) (get_jobs (controller (parent self)) status)
      else
        v <- lift (getitem (args request) "id") ;;
        identifier <- lift (decode v.1) ;;
        job <- invoke (CGetJob identifier)
                 (get_job (controller (parent self)) identifier) ;;
        ret [job]) ;;
   ret (PDict [(text "jobs", PList (to_dict <$> jobs))])).

(** The reply both asynchronous handlers give when an argument is absent
    (the [except KeyError] clause, up to its [return]). *)
Definition missing_argument_reply (e : exn) : M world unit :=
  let result := PDict [(text "status", PStr (text "error"));
                       (text "msg", PStr (text "Missing argument: " ++ py_str e))] in
  setResponseCode 400 >>
  (b <- render_json result ;; write b) >>
  finish.

(** The end of both generators: write the envelope and finish. *)
Definition reply (result : pyval) : M world unit :=
  (b <- render_json result ;; write b) >> finish.

(** [PushProject.render_POST], the generator from the result of
    [yield controller.push_project(name, data)] on. *)
Definition PushProject_resume (r : result pyval) : M world unit :=
  result <-
    match r with
    | Ret spiders =>
      ret (PDict [(text "status", PStr (text "ok")); (text "spiders", spiders)])
    | Raise e =>
      setResponseCode 400 >> ret (error_envelope (py_str e))
    end ;;
  reply result.

Definition PushProject_do_async (self : JsonResource) (request : Request)
  : M world unit :=
  extracted <-
    try_except
      (v <- lift (getitem (args request) "name") ;;
       name <- lift (decode v.1) ;;
       v <- lift (getitem (args request) "archive") ;;
       ret (Some (name, v.1)))
      (fun e =>
         match e with
         | KeyError _ => Some (missing_argument_reply e >> ret None)
         | _ => None
         end) ;;
  match extracted with
  | None => ret tt
  | Some (name, data) =>
    fun w =>
      match invoke (CPushProject name data)
              (push_project (controller (parent self)) name data) w with
      | (Ret (FiresLater r), w') => suspend (AwaitPushProject request r) w'
      | (Ret (Fired r), w') => PushProject_resume r w'
      | (Raise e, w') => PushProject_resume (Raise e) w'
      end
  end.

Definition PushProject_render_POST (self : JsonResource) (request : Request)
  : M world pyval :=
  inlineCallbacks (PushProject_do_async self request) >> ret NOT_DONE_YET.

(** [CancelJob.render_POST], the generator from the result of
    [yield controller.cancel_job(job_id)] on. *)
Definition CancelJob_resume (r : result pyval) : M world unit :=
  result <-
    match r with
    | Ret _ => ret (PDict [(text "status", PStr (text "ok"))])
    | Raise e =>
      setResponseCode 400 >> ret (error_envelope (py_str e))
    end ;;
  reply result.

Definition CancelJob_do_async (self : JsonResource) (request : Request)
  : M world unit :=
  extracted <-
    try_except
      (v <- lift (getitem (args request) "id") ;;
       job_id <- lift (decode v.1) ;;
       ret (Some job_id))
      (fun e =>
         match e with
         | KeyError _ => Some (missing_argument_reply e >> ret None)
         | _ => None
         end) ;;
  match extracted with
  | None => ret tt
  | Some job_id =>
    fun w =>
      match invoke (CCancelJob job_id)
              (cancel_job (controller (parent self)) job_id) w with
      | (Ret (FiresLater r), w') => suspend (AwaitCancelJob request r) w'
      | (Ret (Fired r), w') => CancelJob_resume r w'
      | (Raise e, w') => CancelJob_resume (Raise e) w'
      end
  end.

Definition CancelJob_render_POST (self : JsonResource) (request : Request)
  : M world pyval :=
  inlineCallbacks (CancelJob_do_async self request) >> ret NOT_DONE_YET.

(** The reactor: every parked generator gets the result of its Deferred
    and runs to its end. *)
Definition resume (g : generator) : M world unit :=
  match g with
  | AwaitPushProject _ r => inlineCallbacks (PushProject_resume r)
  | AwaitCancelJob _ r => inlineCallbacks (CancelJob_resume r)
  end.

Definition reactor_run (w : world) : world :=
  fold_left (fun w g => (resume g w).2) (suspended w)
    {| code := code w; headers := headers w; written := written w;
       finished := finished w; calls := calls w; suspended := [];
       unhandled := unhandled w |}.

(** ** The tree and the gate *)

(** [mod_name.encode('utf-8')] *)
Definition encode (s : pystr) : result bytes :=
  match encode_utf8 s with
  | Some b => Ret b
  | None => Raise (UnicodeEncodeError s)
  end.

(** [putChild]: a later child takes the place of an earlier one of the
    same path. *)
Definition putChild (path : bytes) (child : node) (children : gmap string node)
  : gmap string node :=
  <[path := child]> children.

(** The loop of [WebApp.__init__] over the configured modules; [self] is
    the identity of the tree under construction. *)
Fixpoint load_modules (self : nat) (web_modules : list (pystr * pystr))
    (children : gmap string node) : result (gmap string node) :=
  match web_modules with
  | [] => Ret children
  | (mod_name, mod_class_name) :: rest =>
    match get_object mod_class_name with
    | Raise e => Raise e
    | Ret mod_class =>
      match encode mod_name with
      | Raise e => Raise e
      | Ret path => load_modules self rest (putChild path (ModuleNode mod_class self) children)
      end
    end
  end.

(** A new object: the state is the number of objects made so far. *)
Definition new_object : M nat nat := fun n => (Ret n, S n).

(** [WebApp(config, controller)] *)
Definition WebApp_init (config : Config) (controller : Controller) : M nat WebApp :=
  self <- new_object ;;
  children <- lift (load_modules self (web_modules config)
                      (putChild EmptyString HomeNode ∅)) ;;
  ret {| oid := self; config := config; controller := controller;
         children := children |}.

Inductive interface :=
| IResource
| OtherInterface (name : string).

Definition is_IResource (i : interface) : bool :=
  match i with
  | IResource => true
  | OtherInterface _ => false
  end.

Record PublicHTMLRealm := {
  realm_config : Config;
  realm_controller : Controller;
}.

(** The third component of an avatar, [lambda: None]. *)
Inductive logout := NoLogout.

Definition requestAvatar (self : PublicHTMLRealm) (avatar_id : bytes)
    (mind : pyval) (interfaces : list interface)
  : M nat (interface * WebApp * logout) :=
  if existsb is_IResource interfaces then
    tree <- WebApp_init (realm_config self) (realm_controller self) ;;
    ret (IResource, tree, NoLogout)
  else raise NotImplementedError.

Inductive checker :=
| FilePasswordDB (filename : pystr).

Inductive credential_factory :=
| DigestCredentialFactory (algorithm : string) (authenticationRealm : bytes).

Record Portal := {
  realm : PublicHTMLRealm;
  checkers : list checker;
}.

(** What [get_web_app] returns: the tree itself, or Twisted's wrapper. *)
Inductive resource :=
| Tree (tree : WebApp)
| HTTPAuthSessionWrapper (portal : Portal) (credentialFactories : list credential_factory).

Definition get_web_app (config : Config) (controller : Controller) : M nat resource :=
  let auth := web_auth config in
  if auth then
    let auth_file := web_auth_db config in
    let portal := {| realm := {| realm_config := config;
                                 realm_controller := controller |};
                     checkers := [FilePasswordDB auth_file] |} in
    let credential_factory := DigestCredentialFactory "md5" "scrapy-do" in
    let resource := HTTPAuthSessionWrapper portal [credential_factory] in
    ret resource
  else
    tree <- WebApp_init config controller ;;
    ret (Tree tree).

(** What Twisted's [Portal.login] does for the wrapper once the
    credentials of a request have been checked. *)
Definition login (portal : Portal) (avatar_id : bytes)
  : M nat (interface * WebApp * logout) :=
  requestAvatar (realm portal) avatar_id PNone [IResource].

(** The routing of a tree: each path with the class that handles it
    ([None] for the home page). *)
Definition handler_class (n : node) : option module_class :=
  match n with
  | HomeNode => None
  | ModuleNode cls _ => Some cls
  end.

Definition routing (tree : WebApp) : gmap string (option module_class) :=
  handler_class <$> children tree.

(** ** The life of one request

    From the call of [render] by the framework until the reactor has fired
    the Deferreds the handler left pending. *)
Definition lifecycle (render_METHOD : Request -> M world pyval)
    (request : Request) (w : world) : result rendered * world :=
  match JsonResource_render render_METHOD request w with
  | (out, w') => (out, reactor_run w')
  end.

(** The response after [render_json] has set its first header and
    failed at the second. *)
Definition with_content_type (w : world) : world :=
  {| code := code w;
     headers := <["Content-Type" := HStr "application/json"]> (headers w);
     written := written w; finished := finished w; calls := calls w;
     suspended := suspended w; unhandled := unhandled w |}.

Definition with_code (c : Z) (w : world) : world :=
  {| code := c; headers := headers w; written := written w;
     finished := finished w; calls := calls w; suspended := suspended w;
     unhandled := unhandled w |}.

(** The text of an error envelope, as [render_json] makes it. *)
Definition error_body (msg : pystr) : bytes :=
  "{" +:+ quoted "status" +:+ ": " +:+ quoted "error" +:+ ", " +:+
  quoted "msg" +:+ ": " +:+ json_string msg +:+ "}" +:+ newline.

(** The synchronous operations of the catalogue, each with its handler. *)
Inductive sync_operation :=
| OpStatus (p : result process)
| OpListProjects
| OpListSpiders
| OpScheduleJob
| OpListJobs.

Definition sync_handler (op : sync_operation)
  : JsonResource -> Request -> M world pyval :=
  match op with
  | OpStatus p => Status_render_GET p
  | OpListProjects => ListProjects_render_GET
  | OpListSpiders => ListSpiders_render_GET
  | OpScheduleJob => ScheduleJob_render_POST
  | OpListJobs => ListJobs_render_GET
  end.

Definition status_ok : pystr * pyval := (text "status", PStr (text "ok")).

(** The asynchronous operations of the catalogue, each with its handler
    and with the fields of its success envelope beside [status]. *)
Inductive async_operation :=
| OpPushProject
| OpCancelJob.

Definition async_handler (op : async_operation)
  : JsonResource -> Request -> M world pyval :=
  match op with
  | OpPushProject => PushProject_render_POST
  | OpCancelJob => CancelJob_render_POST
  end.

Definition async_fields (op : async_operation) (value : pyval) : pydict :=
  match op with
  | OpPushProject => [(text "spiders", value)]
  | OpCancelJob => []
  end.

(** The call of the Controller a request leads to when the arguments of
    the operation are all there and decode; [None] otherwise. *)
Definition async_call (op : async_operation) (self : JsonResource)
    (request : Request) : option (call * result deferred) :=
  match op with
  | OpPushProject =>
    match args request !! "name", args request !! "archive" with
    | Some n, Some a =>
      match decode_utf8 n.1 with
      | Some name =>
        Some (CPushProject name a.1,
              push_project (controller (parent self)) name a.1)
      | None => None
      end
    | _, _ => None
    end
  | OpCancelJob =>
    match args request !! "id" with
    | Some i =>
      match decode_utf8 i.1 with
      | Some job_id =>
        Some (CCancelJob job_id, cancel_job (controller (parent self)) job_id)
      | None => None
      end
    | None => None
    end
  end.

(** The outcome of an asynchronous operation, whenever it comes: the
    value or the error of its Deferred, or the error of the call. *)
Definition outcome (d : result deferred) : result pyval :=
  match d with
  | Ret (Fired r) => r
  | Ret (FiresLater r) => r
  | Raise e => Raise e
  end.

(** A synchronous handler with a given outcome, as the generic wrapper
    expects it: the operation's own fields when the operation succeeds,
    its error raised when it fails. *)
Definition handler_with_outcome (fields : pyval -> pydict) (r : result pyval)
  : Request -> M world pyval :=
  fun _ =>
    match r with
    | Ret value => ret (PDict (fields value))
    | Raise e => raise e
    end.

(** The byte 0xFF alone, which is no UTF-8 text. *)
Definition undecodable : bytes := String (byte_of 255) EmptyString.

(** A request with its [id] argument taken away. *)
Definition without_id (request : Request) : Request :=
  {| method := method request; args := delete "id" (args request) |}.

(** A configuration with its [auth] flag set to [b]. *)
Definition with_auth (b : bool) (c : Config) : Config :=
  {| web_auth := b; web_auth_db := web_auth_db c; web_modules := web_modules c |}.

(** ** The states the properties speak of *)

Definition logged (c : call) (w : world) : world :=
  {| code := code w; headers := headers w; written := written w;
     finished := finished w; calls := calls w ++ [c];
     suspended := suspended w; unhandled := unhandled w |}.

(** The world after a generator has ended in the error [e], which stays
    in the Deferred nobody reads. *)
Definition dropped (e : exn) (w : world) : world :=
  {| code := code w; headers := headers w; written := written w;
     finished := finished w; calls := calls w; suspended := suspended w;
     unhandled := unhandled w ++ [e] |}.

(** The world an asynchronous handler leaves once the outcome [r] of its
    request is in (the value or the error of the Controller, or the
    KeyError of an absent argument): the code is 400 for an error,
    [render_json] has failed at its second header, and that error is in
    the Deferred of the generator. *)
Definition abandoned (r : result pyval) (w : world) : world :=
  dropped int_header_error
    (with_content_type
       match r with
       | Ret _ => w
       | Raise _ => with_code 400 w
       end).

(** The whole of the status branch. *)
Definition status_branch (self : JsonResource) (v : string * list string)
    (w : world) : result pyval * world :=
  match decode_utf8 v.1 with
  | None => (Raise (UnicodeDecodeError v.1), w)
  | Some name =>
    match JobStatus_getitem name with
    | Raise e => (Raise e, w)
    | Ret status =>
      (match get_jobs (controller (parent self)) status with
       | Ret jobs => Ret (PDict [(text "jobs", PList (to_dict <$> jobs))])
       | Raise e => Raise e
       end,
       logged (CGetJobs status) w)
    end
  end.

(** A byte that is a printable ASCII character, and a text made of such
    bytes only. *)
Definition printable (a : ascii) : bool :=
  ((32 <=? N_of_ascii a) && (N_of_ascii a <=? 126))%N.

Definition printable_line (s : string) : bool :=
  forallb printable (list_ascii_of_string s).


(** The call of the Controller that belongs to a synchronous operation. *)
Definition own_call (op : sync_operation) (c : call) : Prop :=
  match op with
  | OpStatus _ => False
  | OpListProjects => c = CGetProjects
  | OpListSpiders => exists project, c = CGetSpiders project
  | OpScheduleJob => exists project spider when, c = CScheduleJob project spider when
  | OpListJobs =>
    (exists status, c = CGetJobs status) \/ (exists identifier, c = CGetJob identifier)
  end.

(** A computation that leaves the world as it found it, and one that at
    most adds one call of the Controller, of a given kind. *)
Definition quiet {A} (m : M world A) : Prop := forall w, (m w).2 = w.

Definition calls_at_most_once {A} (P : call -> Prop) (m : M world A) : Prop :=
  forall w, (m w).2 = w \/ exists c, P c /\ (m w).2 = logged c w.


(** A code point whose UTF-8 bytes, when it has any, decode to that very
    code point and nothing else. *)
Definition point_round_trip (c : N) : bool :=
  match utf8_of_point c with
  | None => true
  | Some bs =>
    match utf8_points ((fun a => N_of_ascii a) <$> bs) with
    | Some [c'] => (c' =? c)%N
    | _ => false
    end
  end.

End WebService.

(** * A small installation

    A status enumeration, jobs, a Controller and a configuration on which
    the properties above are exercised. *)

Inductive sample_status :=
| SCHEDULED
| RUNNING
| SUCCESSFUL.

Definition sample_status_name (s : sample_status) : pystr :=
  match s with
  | SCHEDULED => text "SCHEDULED"
  | RUNNING => text "RUNNING"
  | SUCCESSFUL => text "SUCCESSFUL"
  end.

Definition sample_getitem (name : pystr) : result sample_status :=
  if bool_decide (name = text "SCHEDULED") then Ret SCHEDULED
  else if bool_decide (name = text "RUNNING") then Ret RUNNING
  else if bool_decide (name = text "SUCCESSFUL") then Ret SUCCESSFUL
  else Raise (OtherError (text "'" ++ name ++ text "'")).

Record sample_job := {
  job_identifier : pystr;
  job_status : sample_status;
}.

Definition sample_to_dict (j : sample_job) : pyval :=
  PDict [(text "identifier", PStr (job_identifier j));
         (text "status", PStr (sample_status_name (job_status j)))].

Definition sample_get_object (name : pystr) : result module_class :=
  if bool_decide (name = text "scrapy_do.webservice.Status") then Ret Status
  else if bool_decide (name = text "scrapy_do.webservice.ListJobs") then Ret ListJobs
  else Raise (OtherError (text "No module named " ++ name)).

Definition sample : Environment :=
  {| decode_error_text := fun _ => text "'utf-8' codec can't decode bytes";
     encode_error_text := fun _ => text "'utf-8' codec can't encode characters";
     JobStatus := sample_status;
     JobStatus_getitem := sample_getitem;
     Job := sample_job;
     to_dict := sample_to_dict;
     get_object := sample_get_object |}.

Definition job1 : sample_job :=
  {| job_identifier := text "abc123"; job_status := RUNNING |}.

Definition spiders_AB : pyval :=
  PList [PStr (text "spiderA"); PStr (text "spiderB")].

Definition sample_controller : @Controller sample :=
  {| push_project := fun name data => Ret (FiresLater (Ret spiders_AB));
     get_projects := Raise (OtherError (text "database is locked"));
     get_spiders := fun project => Ret (PList [PStr (text "spiderA")]);
     schedule_job := fun project spider when => Ret (PStr (text "abc123"));
     get_jobs := fun status => Ret [job1 : @Job sample];
     get_job := fun identifier =>
       if bool_decide (identifier = text "abc123") then Ret (job1 : @Job sample)
       else Raise (OtherError (text "No such job"));
     cancel_job := fun identifier =>
       Ret (Fired (Raise (OtherError (text "No such job")))) |}.

Definition sample_config : Config :=
  {| web_auth := true;
     web_auth_db := text "auth.db";
     web_modules := [(text "status.json", text "scrapy_do.webservice.Status");
                     (text "list-jobs.json", text "scrapy_do.webservice.ListJobs")] |}.

Definition sample_self : @JsonResource sample :=
  {| parent := {| oid := 0; config := sample_config;
                  controller := sample_controller; children := ∅ |} |}.

Definition one (value : bytes) : string * list string := (value, []).

Definition no_arguments : Request := {| method := "GET"; args := ∅ |}.

Definition schedule_request : Request :=
  {| method := "POST";
     args := {["project" := one "p1"; "spider" := one "s1"; "when" := one "now"]} |}.

Definition push_request : Request :=
  {| method := "POST";
     args := {["name" := one "proj"; "archive" := one "PK"]} |}.

Definition status_request (status : bytes) : Request :=
  {| method := "GET"; args := {["status" := one status]} |}.

Definition id_request (id : bytes) : Request :=
  {| method := "GET"; args := {["id" := one id]} |}.

Definition both_request (status id : bytes) : Request :=
  {| method := "GET"; args := {["status" := one status; "id" := one id]} |}.

(** * Properties *)

Section Properties.

Context {environment : Environment}.

Lemma append_assoc (a b c : string) : (a +:+ b) +:+ c = a +:+ (b +:+ c).
Proof.
  induction a as [|x a IH]; [reflexivity|].
  change (String x ((a +:+ b) +:+ c) = String x (a +:+ (b +:+ c))).
  now rewrite IH.
Qed.

Lemma render_json_eq data w :
  render_json data w = (Raise int_header_error, with_content_type w).
Proof. reflexivity. Qed.

Lemma error_envelope_text msg :
  json_dumps (error_envelope msg) +:+ newline = error_body msg.
Proof.
  unfold error_body, error_envelope. cbn [json_dumps].
  change (json_string (text "status")) with (quoted "status").
  change (json_string (text "error")) with (quoted "error").
  change (json_string (text "msg")) with (quoted "msg").
  generalize (json_string msg); intros m.
  now rewrite !append_assoc.
Qed.

Lemma with_content_type_again c w :
  with_content_type (with_code c (with_content_type w))
  = with_content_type (with_code c w).
Proof.
  unfold with_content_type, with_code. cbn. now rewrite insert_insert_eq.
Qed.

(** What [render] does, by what the handler did. *)
Lemma render_eq render_METHOD request w :
  JsonResource_render render_METHOD request w =
    match render_METHOD request w with
    | (Ret data, w1) =>
      if is_NOT_DONE_YET data then (Ret (Unfinished data), w1)
      else (Raise int_header_error, with_content_type (with_code 400 w1))
    | (Raise e, w1) =>
      (Raise int_header_error, with_content_type (with_code 400 w1))
    end.
Proof.
  unfold JsonResource_render, try_except, bind.
  destruct (render_METHOD request w) as [[data|e] w1]; [|reflexivity].
  destruct (is_NOT_DONE_YET data); [reflexivity|].
  destruct data; cbn [unpack_over lift]; try reflexivity.
  rewrite <- with_content_type_again. reflexivity.
Qed.

(** The [except Exception] clause of [render]. *)
Lemma render_raise render_METHOD request w e w1 :
  render_METHOD request w = (Raise e, w1) ->
  JsonResource_render render_METHOD request w =
    (Raise int_header_error, with_content_type (with_code 400 w1)).
Proof. intros H. now rewrite render_eq, H. Qed.

(** The [try] branch of [render] for a handler that returned a value
    other than [NOT_DONE_YET]. *)
Lemma render_value render_METHOD request w data w1 :
  render_METHOD request w = (Ret data, w1) ->
  is_NOT_DONE_YET data = false ->
  JsonResource_render render_METHOD request w =
    (Raise int_header_error, with_content_type (with_code 400 w1)).
Proof. intros H Hn. now rewrite render_eq, H, Hn. Qed.

Lemma content_type_set w :
  headers (with_content_type w) !! "Content-Type" = Some (HStr "application/json").
Proof. apply lookup_insert_eq. Qed.

Lemma content_length_kept w :
  headers (with_content_type w) !! "Content-Length" = headers w !! "Content-Length".
Proof. cbn. now rewrite lookup_insert_ne. Qed.

(** C1, where the code departs from it.  When the handler of a JSON node
    raises an error [e], [render] does not return the error envelope:
    its [except] clause sets the code 400 and calls [render_json], whose
    [setHeader('Content-Length', len(json_data))] raises AttributeError;
    raised inside the [except] clause, that error leaves [render].  The
    response is left with the code 400 and the header [Content-Type],
    with no new [Content-Length], and nothing else of it or of the
    Controller's log has changed. *)
Theorem render_error_path_raises render_METHOD request w e w1 :
  render_METHOD request w = (Raise e, w1) ->
  exists w2,
    JsonResource_render render_METHOD request w = (Raise int_header_error, w2)
    /\ code w2 = 400
    /\ headers w2 !! "Content-Type" = Some (HStr "application/json")
    /\ headers w2 !! "Content-Length" = headers w1 !! "Content-Length"
    /\ written w2 = written w1 /\ finished w2 = finished w1
    /\ calls w2 = calls w1.
Proof.
  intros H. eexists. rewrite (render_raise _ _ _ _ _ H).
  split; [reflexivity|]. split; [reflexivity|].
  split; [apply content_type_set|].
  split; [now rewrite content_length_kept|]. repeat split.
Qed.

(** X4.  [render] returns only for a handler that returned a value equal
    to [NOT_DONE_YET], and then it returns that value and leaves the
    response as the handler left it.  For any other value of the
    handler, and when the handler raises, [render] raises the
    AttributeError of [setHeader] with the code set to 400: it never
    returns a body, and it writes and finishes nothing. *)
Theorem render_returns_only_the_sentinel render_METHOD request w :
  (exists data w1,
     render_METHOD request w = (Ret data, w1)
     /\ is_NOT_DONE_YET data = true
     /\ JsonResource_render render_METHOD request w = (Ret (Unfinished data), w1))
  \/ (exists w2,
        JsonResource_render render_METHOD request w = (Raise int_header_error, w2)
        /\ code w2 = 400
        /\ written w2 = written (render_METHOD request w).2
        /\ finished w2 = finished (render_METHOD request w).2
        /\ calls w2 = calls (render_METHOD request w).2).
Proof.
  rewrite render_eq.
  destruct (render_METHOD request w) as [[data|e] w1].
  - destruct (is_NOT_DONE_YET data) eqn:Hn.
    + left. exists data, w1. auto.
    + right. eexists. repeat split.
  - right. eexists. repeat split.
Qed.

(** *** Inversion of the monadic steps *)

Lemma bind_ret_inv {S A B} (m : M S A) (k : A -> M S B) s b s1 :
  bind m k s = (Ret b, s1) ->
  exists a s', m s = (Ret a, s') /\ k a s' = (Ret b, s1).
Proof.
  unfold bind. destruct (m s) as [[a|e] s']; [eauto | discriminate].
Qed.

Lemma lift_ret_inv {S A} (r : result A) (s s1 : S) a :
  lift r s = (Ret a, s1) -> r = Ret a /\ s1 = s.
Proof. unfold lift. intros [= -> ->]. auto. Qed.

Lemma ret_inv {S A} (a b : A) (s s1 : S) :
  ret a s = (Ret b, s1) -> b = a /\ s1 = s.
Proof. intros [= -> ->]. auto. Qed.

Ltac unbind H :=
  repeat match type of H with
  | bind _ _ _ = (Ret _, _) =>
    let a := fresh "a" in let s := fresh "s" in let Hm := fresh "Hm" in
    apply bind_ret_inv in H; destruct H as (a & s & Hm & H)
  | ret _ _ = (Ret _, _) => apply ret_inv in H; destruct H as [-> ->]
  end.

(** What each synchronous handler returns when it returns. *)
Lemma sync_handler_returns op self request w data w1 :
  sync_handler op self request w = (Ret data, w1) ->
  exists fields,
    data = PDict fields
    /\ dict_get (text "status") fields = None
    /\ dict_merge [status_ok] fields = status_ok :: fields.
Proof.
  destruct op; cbn [sync_handler];
    unfold Status_render_GET, ListProjects_render_GET, ListSpiders_render_GET,
      ScheduleJob_render_POST, ListJobs_render_GET;
    intros H; unbind H; eexists; (split; [reflexivity|]); split; reflexivity.
Qed.

(** C2, where the code departs from it.  On every success path of
    Status, ListProjects, ListSpiders, ScheduleJob and ListJobs the
    handler returns a mapping without a key [status], so that the
    mapping [render] builds from it has [status] first, with the value
    ["ok"], and then the operation's own fields.  But no body is
    rendered from it: [render_json] raises at
    [setHeader('Content-Length', len(json_data))]; this happens inside
    the [try] of [render], whose [except] clause sets the code 400 and
    calls [render_json] again, which raises again, out of [render].  A
    request that succeeded is left with the code 400 and no body. *)
Theorem success_path_raises op self request w data w1 :
  sync_handler op self request w = (Ret data, w1) ->
  exists fields w2,
    data = PDict fields
    /\ unpack_over [status_ok] data = Ret (status_ok :: fields)
    /\ JsonResource_render (sync_handler op self) request w
       = (Raise int_header_error, w2)
    /\ code w2 = 400
    /\ written w2 = written w1 /\ finished w2 = finished w1
    /\ calls w2 = calls w1.
Proof.
  intros H. destruct (sync_handler_returns _ _ _ _ _ _ H) as (fields & -> & Hs & Hm).
  exists fields. eexists. split; [reflexivity|].
  split; [cbn [unpack_over]; now rewrite Hm|].
  rewrite (render_value _ _ _ _ _ H eq_refl). repeat split.
Qed.

(** *** The generators, by the arguments of the request *)

Lemma missing_argument_reply_eq e w :
  missing_argument_reply e w
  = (Raise int_header_error, with_content_type (with_code 400 w)).
Proof. reflexivity. Qed.

Lemma PushProject_resume_eq r w :
  PushProject_resume r w =
    (Raise int_header_error,
     with_content_type match r with Ret _ => w | Raise _ => with_code 400 w end).
Proof. destruct r; reflexivity. Qed.

Lemma CancelJob_resume_eq r w :
  CancelJob_resume r w =
    (Raise int_header_error,
     with_content_type match r with Ret _ => w | Raise _ => with_code 400 w end).
Proof. destruct r; reflexivity. Qed.

Lemma PushProject_do_async_call self request w n a name :
  args request !! "name" = Some n ->
  decode_utf8 n.1 = Some name ->
  args request !! "archive" = Some a ->
  PushProject_do_async self request w =
    match push_project (controller (parent self)) name a.1 with
    | Ret (FiresLater r) =>
      suspend (AwaitPushProject request r) (logged (CPushProject name a.1) w)
    | Ret (Fired r) => PushProject_resume r (logged (CPushProject name a.1) w)
    | Raise e => PushProject_resume (Raise e) (logged (CPushProject name a.1) w)
    end.
Proof.
  intros Hn Hd Ha.
  unfold PushProject_do_async, try_except, bind, lift, getitem, decode.
  rewrite Hn, Hd, Ha. reflexivity.
Qed.

Lemma PushProject_do_async_no_name self request w :
  args request !! "name" = None ->
  PushProject_do_async self request w = missing_argument_reply (KeyError "name") w.
Proof.
  intros Hn.
  unfold PushProject_do_async, try_except, bind, lift, getitem.
  rewrite Hn. reflexivity.
Qed.

Lemma PushProject_do_async_no_archive self request w n name :
  args request !! "name" = Some n ->
  decode_utf8 n.1 = Some name ->
  args request !! "archive" = None ->
  PushProject_do_async self request w
  = missing_argument_reply (KeyError "archive") w.
Proof.
  intros Hn Hd Ha.
  unfold PushProject_do_async, try_except, bind, lift, getitem, decode.
  rewrite Hn, Hd, Ha. reflexivity.
Qed.

Lemma PushProject_do_async_undecodable self request w n :
  args request !! "name" = Some n ->
  decode_utf8 n.1 = None ->
  PushProject_do_async self request w = (Raise (UnicodeDecodeError n.1), w).
Proof.
  intros Hn Hd.
  unfold PushProject_do_async, try_except, bind, lift, getitem, decode.
  rewrite Hn, Hd. reflexivity.
Qed.

Lemma CancelJob_do_async_call self request w i job_id :
  args request !! "id" = Some i ->
  decode_utf8 i.1 = Some job_id ->
  CancelJob_do_async self request w =
    match cancel_job (controller (parent self)) job_id with
    | Ret (FiresLater r) =>
      suspend (AwaitCancelJob request r) (logged (CCancelJob job_id) w)
    | Ret (Fired r) => CancelJob_resume r (logged (CCancelJob job_id) w)
    | Raise e => CancelJob_resume (Raise e) (logged (CCancelJob job_id) w)
    end.
Proof.
  intros Hi Hd.
  unfold CancelJob_do_async, try_except, bind, lift, getitem, decode.
  rewrite Hi, Hd. reflexivity.
Qed.

Lemma CancelJob_do_async_no_id self request w :
  args request !! "id" = None ->
  CancelJob_do_async self request w = missing_argument_reply (KeyError "id") w.
Proof.
  intros Hi.
  unfold CancelJob_do_async, try_except, bind, lift, getitem.
  rewrite Hi. reflexivity.
Qed.

Lemma CancelJob_do_async_undecodable self request w i :
  args request !! "id" = Some i ->
  decode_utf8 i.1 = None ->
  CancelJob_do_async self request w = (Raise (UnicodeDecodeError i.1), w).
Proof.
  intros Hi Hd.
  unfold CancelJob_do_async, try_except, bind, lift, getitem, decode.
  rewrite Hi, Hd. reflexivity.
Qed.

(** [render] passes the sentinel of an asynchronous handler on. *)
Lemma render_async (do_async : M world unit) request w :
  JsonResource_render
    (fun _ => inlineCallbacks do_async >> ret NOT_DONE_YET) request w
  = (Ret (Unfinished NOT_DONE_YET), (inlineCallbacks do_async w).2).
Proof.
  unfold JsonResource_render, try_except, bind, inlineCallbacks.
  destruct (do_async w) as [[[]|e] w']; reflexivity.
Qed.

Lemma render_PushProject self request w :
  JsonResource_render (PushProject_render_POST self) request w
  = (Ret (Unfinished NOT_DONE_YET),
     (inlineCallbacks (PushProject_do_async self request) w).2).
Proof. exact (render_async (PushProject_do_async self request) request w). Qed.

Lemma render_CancelJob self request w :
  JsonResource_render (CancelJob_render_POST self) request w
  = (Ret (Unfinished NOT_DONE_YET),
     (inlineCallbacks (CancelJob_do_async self request) w).2).
Proof. exact (render_async (CancelJob_do_async self request) request w). Qed.

Lemma reactor_run_idle w : suspended w = [] -> reactor_run w = w.
Proof. destruct w. cbn. intros ->. reflexivity. Qed.

Lemma lifecycle_async op self request w c d :
  async_call op self request = Some (c, d) ->
  suspended w = [] ->
  lifecycle (async_handler op self) request w
  = (Ret (Unfinished NOT_DONE_YET), abandoned (outcome d) (logged c w)).
Proof.
  intros Hc Hs. destruct w as [c0 h0 wr0 f0 cl0 su0 un0]. cbn in Hs. subst su0.
  destruct op; unfold async_call in Hc; unfold lifecycle, async_handler.
  - destruct (args request !! "name") as [n|] eqn:Hn; [|discriminate].
    destruct (args request !! "archive") as [a|] eqn:Ha; [|discriminate].
    destruct (decode_utf8 n.1) as [name|] eqn:Hd; [|discriminate].
    injection Hc as <- <-.
    rewrite render_PushProject. unfold inlineCallbacks.
    rewrite (PushProject_do_async_call _ _ _ _ _ _ Hn Hd Ha).
    destruct (push_project (controller (parent self)) name a.1) as [[r|r]|e];
      cbn [outcome].
    + rewrite PushProject_resume_eq. destruct r; reflexivity.
    + unfold suspend, reactor_run, logged.
      cbn [fold_left suspended snd resume app code headers written finished
           calls unhandled].
      unfold inlineCallbacks. rewrite PushProject_resume_eq.
      destruct r; reflexivity.
    + rewrite PushProject_resume_eq. reflexivity.
  - destruct (args request !! "id") as [i|] eqn:Hi; [|discriminate].
    destruct (decode_utf8 i.1) as [job_id|] eqn:Hd; [|discriminate].
    injection Hc as <- <-.
    rewrite render_CancelJob. unfold inlineCallbacks.
    rewrite (CancelJob_do_async_call _ _ _ _ _ Hi Hd).
    destruct (cancel_job (controller (parent self)) job_id) as [[r|r]|e];
      cbn [outcome].
    + rewrite CancelJob_resume_eq. destruct r; reflexivity.
    + unfold suspend, reactor_run, logged.
      cbn [fold_left suspended snd resume app code headers written finished
           calls unhandled].
      unfold inlineCallbacks. rewrite CancelJob_resume_eq.
      destruct r; reflexivity.
    + rewrite CancelJob_resume_eq. reflexivity.
Qed.

Lemma lifecycle_without_name self request w :
  suspended w = [] ->
  args request !! "name" = None ->
  lifecycle (PushProject_render_POST self) request w
  = (Ret (Unfinished NOT_DONE_YET), abandoned (Raise (KeyError "name")) w).
Proof.
  intros Hs Hn. unfold lifecycle. rewrite render_PushProject.
  unfold inlineCallbacks.
  rewrite (PushProject_do_async_no_name _ _ _ Hn), missing_argument_reply_eq.
  cbn [snd]. rewrite reactor_run_idle by exact Hs. reflexivity.
Qed.

Lemma lifecycle_without_archive self request w n name :
  suspended w = [] ->
  args request !! "name" = Some n ->
  decode_utf8 n.1 = Some name ->
  args request !! "archive" = None ->
  lifecycle (PushProject_render_POST self) request w
  = (Ret (Unfinished NOT_DONE_YET), abandoned (Raise (KeyError "archive")) w).
Proof.
  intros Hs Hn Hd Ha. unfold lifecycle. rewrite render_PushProject.
  unfold inlineCallbacks.
  rewrite (PushProject_do_async_no_archive _ _ _ _ _ Hn Hd Ha),
    missing_argument_reply_eq.
  cbn [snd]. rewrite reactor_run_idle by exact Hs. reflexivity.
Qed.

Lemma lifecycle_without_id self request w :
  suspended w = [] ->
  args request !! "id" = None ->
  lifecycle (CancelJob_render_POST self) request w
  = (Ret (Unfinished NOT_DONE_YET), abandoned (Raise (KeyError "id")) w).
Proof.
  intros Hs Hi. unfold lifecycle. rewrite render_CancelJob.
  unfold inlineCallbacks.
  rewrite (CancelJob_do_async_no_id _ _ _ Hi), missing_argument_reply_eq.
  cbn [snd]. rewrite reactor_run_idle by exact Hs. reflexivity.
Qed.

Lemma render_handler_with_outcome fields r request w :
  JsonResource_render (handler_with_outcome fields r) request w =
    (Raise int_header_error, with_content_type (with_code 400 w)).
Proof. rewrite render_eq. destruct r; reflexivity. Qed.

(** C4, where the code departs from it.  For an asynchronous request
    whose arguments are complete, and for every outcome of its
    Controller operation (a value or an error, from the call itself,
    from a Deferred that has fired or from one that fires later),
    neither path produces an envelope, and the two paths part.  The
    generic [render], for a synchronous handler with the same outcome,
    raises the AttributeError of [setHeader] to the framework, and
    leaves the code 400 whether the operation succeeded or failed.  The
    hand-written path of PushProject and CancelJob raises the same error
    inside its generator, where it ends in the Deferred nobody reads:
    [render] has returned the sentinel, nothing is written, the response
    is never finished, and the code is 400 only when the operation
    failed. *)
Theorem async_path_parts_from_render op self request w c d :
  async_call op self request = Some (c, d) ->
  suspended w = [] ->
  exists wg wa,
    JsonResource_render (handler_with_outcome (async_fields op) (outcome d))
      request w = (Raise int_header_error, wg)
    /\ lifecycle (async_handler op self) request w
       = (Ret (Unfinished NOT_DONE_YET), wa)
    /\ written wg = written w /\ finished wg = finished w
    /\ written wa = written w /\ finished wa = finished w
    /\ suspended wa = []
    /\ unhandled wa = unhandled w ++ [int_header_error]
    /\ code wg = 400
    /\ code wa = match outcome d with Ret _ => code w | Raise _ => 400 end.
Proof.
  intros Hc Hs. rewrite (lifecycle_async _ _ _ _ _ _ Hc Hs).
  rewrite render_handler_with_outcome. do 2 eexists.
  split; [reflexivity|]. split; [reflexivity|].
  destruct (outcome d); repeat split; exact Hs.
Qed.

(** C5, where the code departs from it.  A POST to CancelJob whose [id]
    is the byte 0xFF: [render] returns the sentinel, and the response is
    never written and never finished; the UnicodeDecodeError of
    [decode], which the [except KeyError] clause lets through, ends in
    the Deferred of [do_async], which nobody reads. *)
Theorem cancel_job_undecodable_id_never_replies self :
  lifecycle (CancelJob_render_POST self)
    {| method := "POST"; args := {["id" := (undecodable, [])]} |} fresh
  = (Ret (Unfinished NOT_DONE_YET),
     {| code := 200; headers := ∅; written := []; finished := 0;
        calls := []; suspended := [];
        unhandled := [UnicodeDecodeError undecodable] |}).
Proof.
  unfold lifecycle. rewrite render_CancelJob. unfold inlineCallbacks.
  rewrite (CancelJob_do_async_undecodable _ _ _ (undecodable, []));
    reflexivity.
Qed.

(** C3, where the code departs from it.  A POST to PushProject that has
    no [archive] and whose [name] is the byte 0xFF: no error envelope is
    written, the response is never finished; the Controller is not
    called. *)
Theorem push_project_undecodable_name_never_replies self :
  args {| method := "POST"; args := {["name" := (undecodable, [])]} |}
    !! "archive" = None
  /\ lifecycle (PushProject_render_POST self)
       {| method := "POST"; args := {["name" := (undecodable, [])]} |} fresh
     = (Ret (Unfinished NOT_DONE_YET),
        {| code := 200; headers := ∅; written := []; finished := 0;
           calls := []; suspended := [];
           unhandled := [UnicodeDecodeError undecodable] |}).
Proof.
  split; [reflexivity|].
  unfold lifecycle. rewrite render_PushProject. unfold inlineCallbacks.
  rewrite (PushProject_do_async_undecodable _ _ _ (undecodable, []));
    reflexivity.
Qed.

(** The text [json.dumps] gives for the envelope that the
    [except KeyError] clause of CancelJob builds. *)
Lemma missing_id_text :
  json_dumps (PDict [(text "status", PStr (text "error"));
                     (text "msg", PStr (text "Missing argument: "
                                          ++ py_str (KeyError "id")))])
  = "{" +:+ quoted "status" +:+ ": " +:+ quoted "error" +:+ ", " +:+
    quoted "msg" +:+ ": " +:+ quoted "Missing argument: b'id'" +:+ "}".
Proof. reflexivity. Qed.

(** C8, where the code departs from it.  A POST to CancelJob without
    [id]: the [except KeyError] clause sets the code 400 and calls
    [render_json] for its envelope, which raises at
    [setHeader('Content-Length', len(json_data))], before
    [request.write] is reached; the error ends in the Deferred of
    [do_async].  [render] returns the sentinel, no body is written and
    the response is never finished.  The Controller has not been called
    and no generator is left waiting.  (The message of the envelope
    that is lost is [Missing argument: b'id'], [str] of a KeyError being
    the [repr] of its key.) *)
Theorem cancel_job_without_id_never_replies self request w :
  args request !! "id" = None ->
  suspended w = [] ->
  exists wa,
    lifecycle (CancelJob_render_POST self) request w
      = (Ret (Unfinished NOT_DONE_YET), wa)
    /\ written wa = written w
    /\ finished wa = finished w
    /\ code wa = 400
    /\ calls wa = calls w
    /\ suspended wa = []
    /\ unhandled wa = unhandled w ++ [int_header_error]
    /\ text "Missing argument: " ++ py_str (KeyError "id")
       = text "Missing argument: b'id'".
Proof.
  intros Hi Hs. eexists. rewrite (lifecycle_without_id _ _ _ Hs Hi).
  repeat split. exact Hs.
Qed.

(** *** ListJobs *)

Lemma has_arg_Some (a : gmap bytes (bytes * list bytes)) k v :
  a !! k = Some v -> has_arg a k = true.
Proof. intros H. unfold has_arg. rewrite H. reflexivity. Qed.

Lemma has_arg_None (a : gmap bytes (bytes * list bytes)) k :
  a !! k = None -> has_arg a k = false.
Proof. intros H. unfold has_arg. rewrite H. reflexivity. Qed.

Lemma ListJobs_with_status self request w v :
  args request !! "status" = Some v ->
  ListJobs_render_GET self request w = status_branch self v w.
Proof.
  intros Hs. unfold ListJobs_render_GET, status_branch, arg_require_any.
  cbn [existsb]. rewrite (has_arg_Some _ _ _ Hs). cbn [orb].
  unfold bind, lift, getitem, decode, invoke. rewrite Hs.
  destruct (decode_utf8 v.1) as [name|]; [|reflexivity].
  destruct (JobStatus_getitem name) as [status|e]; [|reflexivity].
  destruct (get_jobs (controller (parent self)) status); reflexivity.
Qed.

Lemma ListJobs_with_id_only self request w v :
  args request !! "status" = None ->
  args request !! "id" = Some v ->
  ListJobs_render_GET self request w =
    match decode_utf8 v.1 with
    | None => (Raise (UnicodeDecodeError v.1), w)
    | Some identifier =>
      (match get_job (controller (parent self)) identifier with
       | Ret job => Ret (PDict [(text "jobs", PList [to_dict job])])
       | Raise e => Raise e
       end,
       logged (CGetJob identifier) w)
    end.
Proof.
  intros Hs Hi. unfold ListJobs_render_GET, arg_require_any.
  cbn [existsb]. rewrite (has_arg_None _ _ Hs), (has_arg_Some _ _ _ Hi).
  cbn [orb]. unfold bind, lift, getitem, decode, invoke. rewrite Hi.
  destruct (decode_utf8 v.1) as [identifier|]; [|reflexivity].
  destruct (get_job (controller (parent self)) identifier); reflexivity.
Qed.

Lemma ListJobs_with_neither self request w :
  args request !! "status" = None ->
  args request !! "id" = None ->
  ListJobs_render_GET self request w
  = (Raise (MissingArgument ["status"; "id"]), w).
Proof.
  intros Hs Hi. unfold ListJobs_render_GET, arg_require_any.
  cbn [existsb]. rewrite (has_arg_None _ _ Hs), (has_arg_None _ _ Hi).
  reflexivity.
Qed.

(** C6.  A GET to ListJobs.  With neither [status] nor [id] the handler
    fails with a MissingArgument error and calls nothing.  With a
    [status] that decodes to the name of a member, [get_jobs] is called
    with that member, whatever [id] is or is not, and when it returns
    jobs the result is the list of their [to_dict] under [jobs].  With
    [id] alone, [get_job] is called with the decoded [id], and when it
    returns a job the result is the one-element list of its [to_dict]
    under [jobs]. *)
Theorem list_jobs_alternatives self request w :
  (args request !! "status" = None ->
   args request !! "id" = None ->
   exists names,
     ListJobs_render_GET self request w = (Raise (MissingArgument names), w))
  /\ (forall v name status,
        args request !! "status" = Some v ->
        decode_utf8 v.1 = Some name ->
        JobStatus_getitem name = Ret status ->
        exists out,
          ListJobs_render_GET self request w = (out, logged (CGetJobs status) w)
          /\ forall jobs,
               get_jobs (controller (parent self)) status = Ret jobs ->
               out = Ret (PDict [(text "jobs", PList (to_dict <$> jobs))]))
  /\ (forall v identifier,
        args request !! "status" = None ->
        args request !! "id" = Some v ->
        decode_utf8 v.1 = Some identifier ->
        exists out,
          ListJobs_render_GET self request w = (out, logged (CGetJob identifier) w)
          /\ forall job,
               get_job (controller (parent self)) identifier = Ret job ->
               out = Ret (PDict [(text "jobs", PList [to_dict job])])).
Proof.
  split; [|split].
  - intros Hs Hi. eexists. apply (ListJobs_with_neither _ _ _ Hs Hi).
  - intros v name status Hs Hd Hl. rewrite (ListJobs_with_status _ _ _ _ Hs).
    unfold status_branch. rewrite Hd, Hl. eexists. split; [reflexivity|].
    intros jobs ->. reflexivity.
  - intros v identifier Hs Hi Hd. rewrite (ListJobs_with_id_only _ _ _ _ Hs Hi), Hd.
    eexists. split; [reflexivity|]. intros job ->. reflexivity.
Qed.

(** C7, where the code departs from it.  A GET to ListJobs whose
    [status] is text that names no member of the enumeration, so that
    the lookup raises [e]: the handler raises [e] without calling the
    Controller, and [render] catches it, but the error envelope is not
    returned: [render_json], called in the [except] clause, raises at
    [setHeader('Content-Length', len(json_data))], and this
    AttributeError leaves [render], with the code set to 400. *)
Theorem unknown_status_escapes_render self request w v name e :
  args request !! "status" = Some v ->
  decode_utf8 v.1 = Some name ->
  JobStatus_getitem name = Raise e ->
  ListJobs_render_GET self request w = (Raise e, w)
  /\ exists w2,
       JsonResource_render (ListJobs_render_GET self) request w
         = (Raise int_header_error, w2)
       /\ code w2 = 400
       /\ calls w2 = calls w
       /\ written w2 = written w /\ finished w2 = finished w.
Proof.
  intros Hs Hd Hl.
  assert (ListJobs_render_GET self request w = (Raise e, w)) as H.
  { rewrite (ListJobs_with_status _ _ _ _ Hs). unfold status_branch.
    now rewrite Hd, Hl. }
  split; [exact H|]. eexists. rewrite (render_raise _ _ _ _ _ H).
  repeat split.
Qed.

(** C10.  A GET to ListJobs that has both [status] and [id] is handled
    as if [id] were not there: the handler and [render] give what they
    give for the request without [id]; the calls of the Controller it
    adds contain no [get_job]; and when [status] decodes to the name of
    a member the one call it adds is [get_jobs] with that member. *)
Theorem status_takes_precedence_over_id self request w vs vi :
  args request !! "status" = Some vs ->
  args request !! "id" = Some vi ->
  ListJobs_render_GET self request w
    = ListJobs_render_GET self (without_id request) w
  /\ JsonResource_render (ListJobs_render_GET self) request w
     = JsonResource_render (ListJobs_render_GET self) (without_id request) w
  /\ exists new,
       calls (ListJobs_render_GET self request w).2 = calls w ++ new
       /\ (forall identifier, CGetJob identifier ∉ new)
       /\ (forall name status,
             decode_utf8 vs.1 = Some name ->
             JobStatus_getitem name = Ret status ->
             new = [CGetJobs status]).
Proof.
  intros Hs Hi.
  assert (args (without_id request) !! "status" = Some vs) as Hs'.
  { cbn. rewrite lookup_delete_ne by done. exact Hs. }
  assert (ListJobs_render_GET self request w
          = ListJobs_render_GET self (without_id request) w) as Heq.
  { now rewrite (ListJobs_with_status _ _ _ _ Hs), (ListJobs_with_status _ _ _ _ Hs'). }
  split; [exact Heq|]. split.
  { unfold JsonResource_render, try_except, bind. now rewrite Heq. }
  rewrite (ListJobs_with_status _ _ _ _ Hs). unfold status_branch.
  destruct (decode_utf8 vs.1) as [name|].
  - destruct (JobStatus_getitem name) as [status|e] eqn:Hl.
    + exists [CGetJobs status]. split; [reflexivity|]. split.
      * intros identifier Hin. apply list_elem_of_singleton in Hin. discriminate.
      * intros name' status' [= <-] Hl'. rewrite Hl in Hl'.
        injection Hl' as <-. reflexivity.
    + exists []. cbn. rewrite app_nil_r. split; [reflexivity|]. split.
      * intros identifier Hin. apply not_elem_of_nil in Hin. exact Hin.
      * intros name' status' [= <-] Hl'. rewrite Hl in Hl'. discriminate.
  - exists []. cbn. rewrite app_nil_r. split; [reflexivity|]. split.
    + intros identifier Hin. apply not_elem_of_nil in Hin. exact Hin.
    + intros ?? [=].
Qed.

(** *** The tree and the gate *)

Lemma WebApp_init_eq config controller n :
  WebApp_init config controller n =
    match load_modules n (web_modules config) (putChild EmptyString HomeNode ∅) with
    | Ret children =>
      (Ret {| oid := n; config := config; controller := controller;
              children := children |}, S n)
    | Raise e => (Raise e, S n)
    end.
Proof.
  unfold WebApp_init, bind, new_object, lift.
  destruct (load_modules _ _ _); reflexivity.
Qed.

(** The classes under the paths do not depend on which tree is built. *)
Lemma load_modules_routing web_modules self1 self2 (c1 c2 : gmap string node) :
  handler_class <$> c1 = handler_class <$> c2 ->
  match load_modules self1 web_modules c1, load_modules self2 web_modules c2 with
  | Ret r1, Ret r2 => handler_class <$> r1 = handler_class <$> r2
  | Raise e1, Raise e2 => e1 = e2
  | _, _ => False
  end.
Proof.
  revert c1 c2. induction web_modules as [|[mod_name mod_class_name] rest IH];
    intros c1 c2 Hc; cbn [load_modules]; [exact Hc|].
  destruct (get_object mod_class_name) as [mod_class|e]; [|reflexivity].
  destruct (encode mod_name) as [path|e]; [|reflexivity].
  apply IH. unfold putChild. rewrite !fmap_insert. cbn [handler_class].
  now rewrite Hc.
Qed.

Lemma WebApp_init_routing config1 config2 controller1 controller2 n1 n2 :
  web_modules config1 = web_modules config2 ->
  match WebApp_init config1 controller1 n1, WebApp_init config2 controller2 n2 with
  | (Ret t1, m1), (Ret t2, m2) =>
    routing t1 = routing t2 /\ oid t1 = n1 /\ oid t2 = n2 /\ m1 = S n1 /\ m2 = S n2
  | (Raise e1, _), (Raise e2, _) => e1 = e2
  | _, _ => False
  end.
Proof.
  intros Hm. rewrite !WebApp_init_eq, Hm.
  pose proof (load_modules_routing (web_modules config2) n1 n2
                (putChild EmptyString HomeNode ∅) (putChild EmptyString HomeNode ∅)
                eq_refl) as H.
  destruct (load_modules n1 _ _), (load_modules n2 _ _); try done.
Qed.

(** C9.  With the [auth] flag off, [get_web_app] returns the tree
    [WebApp(config, controller)] itself.  With the flag on it returns
    Twisted's session wrapper over one Digest credential factory (md5,
    realm [scrapy-do]) and a portal whose only checker is the password
    file of the configuration; and each login through that portal makes
    a new tree (its identity is that of no object made before) with the
    same Controller and, path by path, the same handler classes as the
    tree [get_web_app] returns with the flag off. *)
Theorem get_web_app_two_modes cfg ctrl :
  (web_auth cfg = false ->
   forall n,
     get_web_app cfg ctrl n =
       match WebApp_init cfg ctrl n with
       | (Ret tree, n') => (Ret (Tree tree), n')
       | (Raise e, n') => (Raise e, n')
       end)
  /\ (web_auth cfg = true ->
      exists portal,
        (forall n,
           get_web_app cfg ctrl n =
             (Ret (HTTPAuthSessionWrapper portal
                     [DigestCredentialFactory "md5" "scrapy-do"]), n))
        /\ checkers portal = [FilePasswordDB (web_auth_db cfg)]
        /\ realm portal = {| realm_config := cfg; realm_controller := ctrl |}
        /\ forall n0 n0' ungated,
             get_web_app (with_auth false cfg) ctrl n0
               = (Ret (Tree ungated), n0') ->
             forall avatar_id k,
             exists tree,
               login portal avatar_id k = (Ret (IResource, tree, NoLogout), S k)
               /\ oid tree = k
               /\ routing tree = routing ungated
               /\ controller tree = ctrl).
Proof.
  split.
  - intros Ha n. unfold get_web_app. rewrite Ha. unfold bind.
    destruct (WebApp_init cfg ctrl n) as [[tree|e] n']; reflexivity.
  - intros Ha. eexists. split; [|split; [|split]].
    + intros n. unfold get_web_app. rewrite Ha. reflexivity.
    + reflexivity.
    + reflexivity.
    + intros n0 n0' ungated Hu avatar_id k.
      unfold get_web_app in Hu. cbn [web_auth with_auth] in Hu. unfold bind in Hu.
      unfold login, requestAvatar. cbn [existsb is_IResource orb realm
        realm_config realm_controller]. unfold bind.
      pose proof (WebApp_init_routing cfg (with_auth false cfg)
                    ctrl ctrl k n0 eq_refl) as H.
      rewrite WebApp_init_eq in H |- *.
      destruct (load_modules k _ _) as [children|e];
        destruct (WebApp_init (with_auth false cfg) ctrl n0)
          as [[t0|e0] m0]; try done.
      injection Hu as <- <-. destruct H as (Hr & _).
      eexists. split; [reflexivity|]. repeat split. exact Hr.
Qed.

(** *** What the asynchronous handlers never do *)

(** X2.  A POST to PushProject without [name], or with a [name] that
    decodes and without [archive]: the [except KeyError] clause sets the
    code 400, and [render_json] raises before anything is written; the
    response is not finished, the error is left in the Deferred of
    [do_async], and the Controller is not called. *)
Theorem push_project_missing_argument self request w :
  suspended w = [] ->
  (args request !! "name" = None
   \/ exists n name,
        args request !! "name" = Some n
        /\ decode_utf8 n.1 = Some name
        /\ args request !! "archive" = None) ->
  exists wa,
    lifecycle (PushProject_render_POST self) request w
    = (Ret (Unfinished NOT_DONE_YET), wa)
    /\ code wa = 400
    /\ written wa = written w /\ finished wa = finished w
    /\ calls wa = calls w
    /\ suspended wa = []
    /\ unhandled wa = unhandled w ++ [int_header_error].
Proof.
  intros Hs [Hn|(n & name & Hn & Hd & Ha)]; eexists.
  - rewrite (lifecycle_without_name _ _ _ Hs Hn). repeat split. exact Hs.
  - rewrite (lifecycle_without_archive _ _ _ _ _ Hs Hn Hd Ha).
    repeat split. exact Hs.
Qed.

Lemma resume_silent g w :
  written (resume g w).2 = written w
  /\ finished (resume g w).2 = finished w
  /\ suspended (resume g w).2 = suspended w.
Proof.
  destruct g as [request r|request r]; cbn [resume]; unfold inlineCallbacks.
  - rewrite PushProject_resume_eq. destruct r; repeat split.
  - rewrite CancelJob_resume_eq. destruct r; repeat split.
Qed.

Lemma reactor_silent gs w :
  written (fold_left (fun w g => (resume g w).2) gs w) = written w
  /\ finished (fold_left (fun w g => (resume g w).2) gs w) = finished w
  /\ suspended (fold_left (fun w g => (resume g w).2) gs w) = suspended w.
Proof.
  revert w. induction gs as [|g gs IH]; intros w; cbn [fold_left]; [auto|].
  destruct (IH (resume g w).2) as (-> & -> & ->). apply resume_silent.
Qed.

Lemma reactor_run_silent w :
  written (reactor_run w) = written w
  /\ finished (reactor_run w) = finished w
  /\ suspended (reactor_run w) = [].
Proof.
  unfold reactor_run.
  match goal with
  | |- context [fold_left _ ?gs ?w0] =>
    destruct (reactor_silent gs w0) as (-> & -> & ->)
  end.
  repeat split.
Qed.

Lemma PushProject_do_async_silent self request w :
  written (inlineCallbacks (PushProject_do_async self request) w).2 = written w
  /\ finished (inlineCallbacks (PushProject_do_async self request) w).2 = finished w.
Proof.
  unfold inlineCallbacks.
  destruct (args request !! "name") as [n|] eqn:Hn.
  - destruct (decode_utf8 n.1) as [name|] eqn:Hd.
    + destruct (args request !! "archive") as [a|] eqn:Ha.
      * rewrite (PushProject_do_async_call _ _ _ _ _ _ Hn Hd Ha).
        destruct (push_project _ _ _) as [[[v|e]|r]|e];
          rewrite ?PushProject_resume_eq; split; reflexivity.
      * rewrite (PushProject_do_async_no_archive _ _ _ _ _ Hn Hd Ha),
          missing_argument_reply_eq. split; reflexivity.
    + rewrite (PushProject_do_async_undecodable _ _ _ _ Hn Hd). split; reflexivity.
  - rewrite (PushProject_do_async_no_name _ _ _ Hn), missing_argument_reply_eq.
    split; reflexivity.
Qed.

Lemma CancelJob_do_async_silent self request w :
  written (inlineCallbacks (CancelJob_do_async self request) w).2 = written w
  /\ finished (inlineCallbacks (CancelJob_do_async self request) w).2 = finished w.
Proof.
  unfold inlineCallbacks.
  destruct (args request !! "id") as [i|] eqn:Hi.
  - destruct (decode_utf8 i.1) as [job_id|] eqn:Hd.
    + rewrite (CancelJob_do_async_call _ _ _ _ _ Hi Hd).
      destruct (cancel_job _ _) as [[[v|e]|r]|e];
        rewrite ?CancelJob_resume_eq; split; reflexivity.
    + rewrite (CancelJob_do_async_undecodable _ _ _ _ Hi Hd). split; reflexivity.
  - rewrite (CancelJob_do_async_no_id _ _ _ Hi), missing_argument_reply_eq.
    split; reflexivity.
Qed.

(** X1.  No request to PushProject or CancelJob is ever answered.
    Whatever its arguments, whatever the Controller does and whenever
    its Deferred fires, and whichever generators of earlier requests are
    still waiting: [render] returns the sentinel, and once the reactor
    has fired every pending Deferred nothing has been written, nothing
    has been finished, and no generator is left waiting.  (Every path
    to [request.write] goes through [render_json], which raises.) *)
Theorem async_handlers_never_reply op self request w :
  exists wa,
    lifecycle (async_handler op self) request w
      = (Ret (Unfinished NOT_DONE_YET), wa)
    /\ written wa = written w
    /\ finished wa = finished w
    /\ suspended wa = [].
Proof.
  unfold lifecycle. destruct op; cbn [async_handler]; eexists.
  - rewrite render_PushProject. split; [reflexivity|].
    destruct (reactor_run_silent
                (inlineCallbacks (PushProject_do_async self request) w).2)
      as (-> & -> & ->).
    destruct (PushProject_do_async_silent self request w) as [-> ->]. auto.
  - rewrite render_CancelJob. split; [reflexivity|].
    destruct (reactor_run_silent
                (inlineCallbacks (CancelJob_do_async self request) w).2)
      as (-> & -> & ->).
    destruct (CancelJob_do_async_silent self request w) as [-> ->]. auto.
Qed.

(** X3.  The sentinel is returned before a Deferred that fires later has
    fired: at that moment the generator is parked and nothing has been
    written or finished. *)
Theorem async_sentinel_before_completion op self request w c r :
  async_call op self request = Some (c, Ret (FiresLater r)) ->
  exists g,
    JsonResource_render (async_handler op self) request w
    = (Ret (Unfinished NOT_DONE_YET),
       {| code := code w; headers := headers w; written := written w;
          finished := finished w; calls := calls w ++ [c];
          suspended := suspended w ++ [g]; unhandled := unhandled w |}).
Proof.
  intros Hc. destruct op; unfold async_call in Hc; cbn [async_handler].
  - destruct (args request !! "name") as [n|] eqn:Hn; [|discriminate].
    destruct (args request !! "archive") as [a|] eqn:Ha; [|discriminate].
    destruct (decode_utf8 n.1) as [name|] eqn:Hd; [|discriminate].
    injection Hc as <- Hp. eexists.
    rewrite render_PushProject. unfold inlineCallbacks.
    rewrite (PushProject_do_async_call _ _ _ _ _ _ Hn Hd Ha), Hp. reflexivity.
  - destruct (args request !! "id") as [i|] eqn:Hi; [|discriminate].
    destruct (decode_utf8 i.1) as [job_id|] eqn:Hd; [|discriminate].
    injection Hc as <- Hp. eexists.
    rewrite render_CancelJob. unfold inlineCallbacks.
    rewrite (CancelJob_do_async_call _ _ _ _ _ Hi Hd), Hp. reflexivity.
Qed.

(** *** The validator of the synchronous handlers *)

Lemma is_prefix_refl x : is_prefix x x = true.
Proof.
  induction x as [|c x IH]; [reflexivity|]. cbn.
  rewrite bool_decide_eq_true_2 by reflexivity. exact IH.
Qed.

Lemma contains_suffix p x : contains x (p ++ x) = true.
Proof.
  induction p as [|c p IH]; cbn [app].
  - destruct x; cbn; [reflexivity|].
    rewrite bool_decide_eq_true_2 by reflexivity. now rewrite is_prefix_refl.
  - cbn [contains]. rewrite IH. apply orb_true_r.
Qed.

Lemma missing_argument_text_mentions n :
  contains (text n) (missing_argument_text [n]) = true.
Proof. unfold missing_argument_text. cbn [fmap list_fmap join]. apply contains_suffix. Qed.

Lemma arg_require_all_missing (a : gmap bytes (bytes * list bytes)) names :
  (exists n, n ∈ names /\ a !! n = None) ->
  exists n, n ∈ names /\ a !! n = None
            /\ arg_require_all a names = Raise (MissingArgument [n]).
Proof.
  unfold arg_require_all. induction names as [|k names IH]; intros (n & Hin & Hn).
  - apply not_elem_of_nil in Hin. destruct Hin.
  - cbn [List.find]. destruct (a !! k) as [v|] eqn:Hk.
    + rewrite (has_arg_Some _ _ _ Hk). cbn [negb].
      apply elem_of_cons in Hin as [->|Hin]; [congruence|].
      destruct IH as (m & Hm & Hm' & Hr); [eauto|].
      exists m. split; [now apply elem_of_cons; right|]. split; [exact Hm'|exact Hr].
    + rewrite (has_arg_None _ _ Hk). cbn [negb].
      exists k. split; [now apply elem_of_cons; left|]. split; [exact Hk|reflexivity].
Qed.

(** A request to ListSpiders or ScheduleJob that lacks a required
    argument, under the validator as the specification describes it:
    the handler raises a MissingArgument error whose text mentions an
    absent argument, and the Controller is not called. *)
Lemma sync_missing_argument (schedule : bool) self request w :
  let names := if schedule then ["project"; "spider"; "when"] else ["project"] in
  let handler := if schedule then ScheduleJob_render_POST else ListSpiders_render_GET in
  (exists n, n ∈ names /\ args request !! n = None) ->
  exists n,
    n ∈ names /\ args request !! n = None
    /\ handler self request w = (Raise (MissingArgument [n]), w)
    /\ contains (text n) (py_str (MissingArgument [n])) = true.
Proof.
  intros names handler H.
  destruct (arg_require_all_missing _ _ H) as (n & Hin & Hn & Hr).
  exists n. split; [exact Hin|]. split; [exact Hn|]. split.
  - subst names handler. destruct schedule;
      unfold ScheduleJob_render_POST, ListSpiders_render_GET, bind, lift;
      rewrite Hr; reflexivity.
  - apply missing_argument_text_mentions.
Qed.

(** *** The mapping [render] builds from the value of the handler *)

Lemma dict_get_absent k (d : pydict) : k ∉ d.*1 -> dict_get k d = None.
Proof.
  induction d as [|[k' v'] d IH]; [reflexivity|]. cbn. intros Hk.
  apply not_elem_of_cons in Hk as [Hne Hk].
  rewrite bool_decide_eq_false_2 by congruence. apply IH, Hk.
Qed.

Lemma dict_get_present k v (d : pydict) : dict_get k d = Some v -> k ∈ d.*1.
Proof.
  induction d as [|[k' v'] d IH]; [discriminate|]. cbn.
  destruct (bool_decide_reflect (k' = k)) as [->|Hne].
  - intros _. apply elem_of_cons. now left.
  - intros H. apply elem_of_cons. right. apply IH, H.
Qed.

Lemma dict_setitem_absent k v (d : pydict) :
  k ∉ d.*1 -> dict_setitem k v d = d ++ [(k, v)].
Proof.
  induction d as [|[k' v'] d IH]; [reflexivity|]. cbn. intros Hk.
  apply not_elem_of_cons in Hk as [Hne Hk].
  rewrite bool_decide_eq_false_2 by congruence. now rewrite IH.
Qed.

(** [{**{s: v0, ...}, **b}] for a dict [b]: the first key keeps its place
    and takes the value [b] has for it, the other keys of [b] follow in
    their order. *)
Lemma dict_merge_head s v0 (a b : list (pystr * pyval)) :
  NoDup b.*1 ->
  (forall k, k ∈ a.*1 -> k ∉ b.*1) ->
  s ∉ a.*1 ->
  dict_merge ((s, v0) :: a) b
  = (s, default v0 (dict_get s b))
      :: a ++ filter (fun kv => kv.1 ≠ s) b.
Proof.
  revert v0 a. induction b as [|[k v] b IH]; intros v0 a Hnd Hdis Hs.
  - cbn. now rewrite app_nil_r.
  - cbn in Hnd. apply NoDup_cons in Hnd as [Hk Hnd].
    unfold dict_merge. cbn [fold_left fst snd dict_setitem].
    fold (dict_merge (if bool_decide (s = k) then (k, v) :: a
                      else (s, v0) :: dict_setitem k v a) b).
    rewrite filter_cons. cbn [fst dict_get].
    destruct (bool_decide_reflect (s = k)) as [<-|Hne].
    + rewrite IH; [|exact Hnd| |exact Hs].
      * rewrite (dict_get_absent _ _ Hk). cbn [default].
        rewrite bool_decide_eq_true_2 by reflexivity. cbn [default].
        rewrite decide_False by (intros H; now apply H). reflexivity.
      * intros k' Hk' Hin. apply (Hdis k' Hk'). cbn. apply elem_of_cons. now right.
    + assert (k ∉ a.*1) as Hka.
      { intros Hin. apply (Hdis k Hin). cbn. apply elem_of_cons. now left. }
      rewrite (dict_setitem_absent _ _ _ Hka).
      rewrite IH; [|exact Hnd| |].
      * rewrite bool_decide_eq_false_2 by congruence.
        rewrite decide_True by congruence. now rewrite <- app_assoc.
      * intros k' Hk' Hin. rewrite fmap_app in Hk'.
        apply elem_of_app in Hk' as [Hk'|Hk'].
        -- apply (Hdis k' Hk'). cbn. apply elem_of_cons. now right.
        -- cbn in Hk'. apply list_elem_of_singleton in Hk'. subst k'. contradiction.
      * rewrite fmap_app. intros Hin. apply elem_of_app in Hin as [Hin|Hin];
          [contradiction|]. cbn in Hin. apply list_elem_of_singleton in Hin.
        congruence.
Qed.

(** X5.  When a handler returns a dict that has a key [status] of its
    own, the mapping [render] builds at [{**{'status': 'ok'}, **data}]
    has that value under [status], not ["ok"]; [status] is still the
    first key, and the other fields of the handler follow in their
    order. *)
Theorem status_of_the_handler_wins (fields : list (pystr * pyval)) v :
  NoDup fields.*1 ->
  dict_get (text "status") fields = Some v ->
  unpack_over [(text "status", PStr (text "ok"))] (PDict fields)
  = Ret ((text "status", v) :: filter (fun kv => kv.1 ≠ text "status") fields).
Proof.
  intros Hnd Hv. cbn [unpack_over].
  rewrite (dict_merge_head (text "status") (PStr (text "ok")) [] fields Hnd);
    [|intros k Hk; apply not_elem_of_nil in Hk; destruct Hk
     |apply not_elem_of_nil].
  rewrite Hv. reflexivity.
Qed.

(** *** The bytes of an error envelope *)

Lemma printable_line_app a b :
  printable_line (a +:+ b) = printable_line a && printable_line b.
Proof.
  unfold printable_line. induction a as [|x a IH]; [reflexivity|].
  change (list_ascii_of_string (String x a +:+ b))
    with (x :: list_ascii_of_string (a +:+ b)).
  cbn [list_ascii_of_string forallb]. now rewrite IH, andb_assoc.
Qed.

Lemma hex_digit_printable x : printable (hex_digit (N.land x 15)) = true.
Proof.
  assert (N.land x 15 < 16)%N as Hlt.
  { change 15%N with (N.ones 4). rewrite N.land_ones.
    now apply N.mod_lt. }
  rewrite <- (N2Nat.id (N.land x 15)).
  assert (N.to_nat (N.land x 15) < 16)%nat as Hn by lia.
  revert Hn. generalize (N.to_nat (N.land x 15)). intros m Hm.
  do 16 (destruct m as [|m]; [reflexivity|]). lia.
Qed.

Lemma hex4_printable n : forallb printable (hex4 n) = true.
Proof.
  unfold hex4, hex2. cbn [app forallb]. now rewrite !hex_digit_printable.
Qed.

Lemma json_char_printable c : forallb printable (json_char c) = true.
Proof.
  unfold json_char.
  repeat match goal with
         | |- context [if ?b then _ else _] =>
           let E := fresh "E" in destruct b eqn:E; [try reflexivity|]
         end.
  - cbn [forallb]. unfold printable, byte_of.
    apply andb_true_iff in E6 as [Hlo Hhi].
    apply N.leb_le in Hlo, Hhi.
    rewrite N_ascii_embedding by lia.
    rewrite andb_true_r. apply andb_true_iff. split; now apply N.leb_le.
  - cbn [forallb]. now rewrite hex4_printable.
  - rewrite forallb_app. cbn [forallb]. now rewrite !hex4_printable.
Qed.

Lemma json_string_printable s : printable_line (json_string s) = true.
Proof.
  unfold printable_line, json_string, ascii_text.
  rewrite list_ascii_of_string_of_list_ascii. cbn [forallb].
  rewrite forallb_app. cbn [forallb]. rewrite andb_true_r.
  change (printable double_quote) with true. cbn [andb].
  induction s as [|c s IH]; [reflexivity|].
  cbn [flat_map]. rewrite forallb_app, json_char_printable. exact IH.
Qed.

Lemma error_body_line msg :
  exists line, error_body msg = line +:+ newline /\ printable_line line = true.
Proof.
  exists ("{" +:+ quoted "status" +:+ ": " +:+ quoted "error" +:+ ", " +:+
          quoted "msg" +:+ ": " +:+ json_string msg +:+ "}").
  split.
  - unfold error_body. now rewrite !append_assoc.
  - rewrite !printable_line_app, json_string_printable. reflexivity.
Qed.

(** X8.  Whatever the text of an error (quotes, backslashes, control
    characters, line breaks, characters outside ASCII), the [json_data]
    that [render_json] makes of its error envelope is one line:
    printable ASCII bytes only, then the newline that ends it. *)
Theorem error_envelope_is_one_printable_line msg :
  exists line,
    json_dumps (error_envelope msg) +:+ newline = line +:+ newline
    /\ printable_line line = true.
Proof.
  destruct (error_body_line msg) as (line & Hl & Hp).
  exists line. rewrite error_envelope_text. split; [exact Hl | exact Hp].
Qed.

(** *** What the synchronous handlers touch *)

Lemma quiet_ret {A} (a : A) : quiet (ret a).
Proof. intros w. reflexivity. Qed.

Lemma quiet_lift {A} (r : result A) : quiet (lift r).
Proof. intros w. reflexivity. Qed.

Lemma quiet_bind {A B} (m : M world A) (k : A -> M world B) :
  quiet m -> (forall a, quiet (k a)) -> quiet (bind m k).
Proof.
  intros Hm Hk w. unfold bind. specialize (Hm w).
  destruct (m w) as [[a|e] w']; cbn in Hm; subst w'; [apply Hk | reflexivity].
Qed.

Lemma once_of_quiet {A} P (m : M world A) : quiet m -> calls_at_most_once P m.
Proof. intros Hm w. left. apply Hm. Qed.

Lemma once_invoke {A} (P : call -> Prop) c (r : result A) :
  P c -> calls_at_most_once P (invoke c r).
Proof. intros Hc w. right. exists c. split; [exact Hc | reflexivity]. Qed.

Lemma once_after_quiet {A B} P (m : M world A) (k : A -> M world B) :
  quiet m -> (forall a, calls_at_most_once P (k a)) ->
  calls_at_most_once P (bind m k).
Proof.
  intros Hm Hk w. unfold bind. specialize (Hm w).
  destruct (m w) as [[a|e] w']; cbn in Hm; subst w'; [apply Hk | now left].
Qed.

Lemma once_then_quiet {A B} P (m : M world A) (k : A -> M world B) :
  calls_at_most_once P m -> (forall a, quiet (k a)) ->
  calls_at_most_once P (bind m k).
Proof.
  intros Hm Hk w. unfold bind. specialize (Hm w).
  destruct (m w) as [[a|e] w']; cbn in Hm; [|exact Hm].
  rewrite (Hk a w'). exact Hm.
Qed.

(** X9.  A synchronous handler (Status, ListProjects, ListSpiders,
    ScheduleJob, ListJobs), whatever the request and whether it returns
    or raises, leaves the response as it was (code, headers, nothing
    written, nothing finished) and calls the Controller at most once,
    and then only the operation that is its own. *)
Theorem sync_handler_footprint op self request w :
  (sync_handler op self request w).2 = w
  \/ exists c, own_call op c /\ (sync_handler op self request w).2 = logged c w.
Proof.
  revert w. change (calls_at_most_once (own_call op) (sync_handler op self request)).
  destruct op; cbn [sync_handler].
  - apply once_of_quiet, quiet_bind; [apply quiet_lift | intros; apply quiet_ret].
  - apply once_then_quiet; [now apply once_invoke | intros; apply quiet_ret].
  - unfold ListSpiders_render_GET.
    do 3 (apply once_after_quiet; [apply quiet_lift | intros]).
    apply once_then_quiet; [apply once_invoke; cbn; eauto | intros; apply quiet_ret].
  - unfold ScheduleJob_render_POST.
    do 7 (apply once_after_quiet; [apply quiet_lift | intros]).
    apply once_then_quiet; [apply once_invoke; cbn; eauto | intros; apply quiet_ret].
  - unfold ListJobs_render_GET.
    apply once_after_quiet; [apply quiet_lift | intros].
    apply once_then_quiet; [|intros; apply quiet_ret].
    destruct (has_arg (args request) "status").
    + do 3 (apply once_after_quiet; [apply quiet_lift | intros]).
      apply once_invoke. cbn. eauto.
    + do 2 (apply once_after_quiet; [apply quiet_lift | intros]).
      apply once_then_quiet; [apply once_invoke; cbn; eauto | intros; apply quiet_ret].
Qed.

(** *** ScheduleJob and ListSpiders, argument by argument *)

Lemma arg_require_all_present (a : gmap bytes (bytes * list bytes)) names :
  (forall n, n ∈ names -> is_Some (a !! n)) ->
  arg_require_all a names = Ret tt.
Proof.
  unfold arg_require_all. induction names as [|k names IH]; intros H;
    [reflexivity|].
  cbn [List.find]. destruct (H k) as [v Hv]; [apply elem_of_cons; now left|].
  rewrite (has_arg_Some _ _ _ Hv). cbn [negb]. apply IH.
  intros n Hn. apply H, elem_of_cons. now right.
Qed.

Lemma ScheduleJob_with_arguments self request w vp vs vw :
  args request !! "project" = Some vp ->
  args request !! "spider" = Some vs ->
  args request !! "when" = Some vw ->
  ScheduleJob_render_POST self request w =
    match decode_utf8 vp.1 with
    | None => (Raise (UnicodeDecodeError vp.1), w)
    | Some project =>
      match decode_utf8 vs.1 with
      | None => (Raise (UnicodeDecodeError vs.1), w)
      | Some spider =>
        match decode_utf8 vw.1 with
        | None => (Raise (UnicodeDecodeError vw.1), w)
        | Some when =>
          (match schedule_job (controller (parent self)) project spider when with
           | Ret job_id => Ret (PDict [(text "identifier", job_id)])
           | Raise e => Raise e
           end,
           logged (CScheduleJob project spider when) w)
        end
      end
    end.
Proof.
  intros Hp Hs Hw. unfold ScheduleJob_render_POST.
  rewrite arg_require_all_present.
  2:{ intros n Hn. repeat (apply elem_of_cons in Hn as [->|Hn]; [eauto|]).
      now apply not_elem_of_nil in Hn. }
  unfold bind, lift, getitem, decode, invoke. rewrite Hp, Hs, Hw.
  destruct (decode_utf8 vp.1); [|reflexivity].
  destruct (decode_utf8 vs.1); [|reflexivity].
  destruct (decode_utf8 vw.1); [|reflexivity].
  destruct (schedule_job _ _ _ _); reflexivity.
Qed.

(** X10.  A POST to ScheduleJob with its three arguments, all UTF-8:
    the handler calls the Controller once, with the first value of
    [project], of [spider] and of [when], each decoded and otherwise as
    it came ([when] is not interpreted).  It returns the identifier the
    Controller returned, under [identifier], or raises the error the
    Controller raised; it does not touch the response. *)
Theorem schedule_job_passes_arguments self request w vp vs vw project spider when :
  args request !! "project" = Some vp ->
  args request !! "spider" = Some vs ->
  args request !! "when" = Some vw ->
  decode_utf8 vp.1 = Some project ->
  decode_utf8 vs.1 = Some spider ->
  decode_utf8 vw.1 = Some when ->
  ScheduleJob_render_POST self request w =
    (match schedule_job (controller (parent self)) project spider when with
     | Ret job_id => Ret (PDict [(text "identifier", job_id)])
     | Raise e => Raise e
     end,
     logged (CScheduleJob project spider when) w).
Proof.
  intros Hp Hs Hw Hdp Hds Hdw.
  rewrite (ScheduleJob_with_arguments self request w _ _ _ Hp Hs Hw).
  now rewrite Hdp, Hds, Hdw.
Qed.

(** X11.  A POST to ScheduleJob with its three arguments, one of which
    is not UTF-8: the handler raises the UnicodeDecodeError of the first
    such argument, in the order [project], [spider], [when], and the
    Controller is not called. *)
Theorem schedule_job_undecodable_argument self request w vp vs vw :
  args request !! "project" = Some vp ->
  args request !! "spider" = Some vs ->
  args request !! "when" = Some vw ->
  decode_utf8 vp.1 = None \/ decode_utf8 vs.1 = None \/ decode_utf8 vw.1 = None ->
  exists before value after,
    [vp.1; vs.1; vw.1] = before ++ value :: after
    /\ Forall (fun b => is_Some (decode_utf8 b)) before
    /\ decode_utf8 value = None
    /\ ScheduleJob_render_POST self request w
       = (Raise (UnicodeDecodeError value), w).
Proof.
  intros Hp Hs Hw Hd.
  rewrite (ScheduleJob_with_arguments self request w _ _ _ Hp Hs Hw).
  destruct (decode_utf8 vp.1) as [project|] eqn:Hdp.
  - destruct (decode_utf8 vs.1) as [spider|] eqn:Hds.
    + destruct (decode_utf8 vw.1) as [when|] eqn:Hdw.
      * destruct Hd as [Hd|[Hd|Hd]]; discriminate.
      * exists [vp.1; vs.1], vw.1, []. split; [reflexivity|].
        split; [|split; [exact Hdw | reflexivity]].
        repeat constructor; [now rewrite Hdp | now rewrite Hds].
    + exists [vp.1], vs.1, [vw.1]. split; [reflexivity|].
      split; [|split; [exact Hds | reflexivity]].
      repeat constructor. now rewrite Hdp.
  - exists [], vp.1, [vs.1; vw.1]. split; [reflexivity|].
    split; [constructor|]. split; [exact Hdp | reflexivity].
Qed.

(** X12.  A GET to ListSpiders with a [project] that is UTF-8: the
    handler asks the Controller once for the spiders of the decoded
    project, and on success returns that project name under [project],
    before the spiders the Controller returned under [spiders]; when
    the Controller raises, it raises that error. *)
Theorem list_spiders_echoes_project self request w v project :
  args request !! "project" = Some v ->
  decode_utf8 v.1 = Some project ->
  ListSpiders_render_GET self request w =
    (match get_spiders (controller (parent self)) project with
     | Ret spiders =>
       Ret (PDict [(text "project", PStr project); (text "spiders", spiders)])
     | Raise e => Raise e
     end, logged (CGetSpiders project) w).
Proof.
  intros Hp Hd.
  unfold ListSpiders_render_GET. rewrite arg_require_all_present.
  2:{ intros n Hn. apply list_elem_of_singleton in Hn as ->. eauto. }
  unfold bind, lift, getitem, decode, invoke. rewrite Hp, Hd.
  destruct (get_spiders _ _); reflexivity.
Qed.

(** *** The children of a tree *)

Lemma load_modules_keeps_modules self web_modules (c r : gmap string node) :
  load_modules self web_modules c = Ret r ->
  forall p cls, c !! p = Some (ModuleNode cls self) ->
                exists cls', r !! p = Some (ModuleNode cls' self).
Proof.
  revert c. induction web_modules as [|[mod_name mod_class_name] rest IH];
    intros c; cbn [load_modules].
  - intros [= <-] p cls Hc. eauto.
  - destruct (get_object mod_class_name) as [mod_class|e]; [|discriminate].
    destruct (encode mod_name) as [path|e]; [|discriminate].
    intros Hr p cls Hc. unfold putChild in Hr.
    destruct (decide (path = p)) as [<-|Hne].
    + apply (IH _ Hr path mod_class). apply lookup_insert_eq.
    + apply (IH _ Hr p cls). now rewrite lookup_insert_ne.
Qed.

Lemma load_modules_children self web_modules (c r : gmap string node) :
  load_modules self web_modules c = Ret r ->
  (forall p, (forall name qual, (name, qual) ∈ web_modules -> encode name <> Ret p) ->
             r !! p = c !! p)
  /\ (forall p, is_Some (c !! p) -> is_Some (r !! p))
  /\ (forall p child, r !! p = Some child ->
        c !! p = Some child
        \/ exists name qual cls,
             (name, qual) ∈ web_modules /\ encode name = Ret p
             /\ get_object qual = Ret cls /\ child = ModuleNode cls self)
  /\ (forall name qual, (name, qual) ∈ web_modules ->
        exists p cls, encode name = Ret p /\ r !! p = Some (ModuleNode cls self)).
Proof.
  revert c. induction web_modules as [|[mod_name mod_class_name] rest IH];
    intros c; cbn [load_modules].
  - intros [= <-]. split; [reflexivity|]. split; [auto|]. split; [auto|].
    intros name qual Hin. now apply not_elem_of_nil in Hin.
  - destruct (get_object mod_class_name) as [mod_class|e] eqn:Hg; [|discriminate].
    destruct (encode mod_name) as [path|e] eqn:He; [|discriminate].
    intros Hr. destruct (IH _ Hr) as (H1 & H2 & H3 & H4). unfold putChild in *.
    split; [|split; [|split]].
    + intros p Hp. rewrite H1.
      * apply lookup_insert_ne. intros <-.
        apply (Hp mod_name mod_class_name); [apply elem_of_cons; now left | exact He].
      * intros name qual Hin. apply (Hp name qual), elem_of_cons. now right.
    + intros p Hp. apply H2. rewrite lookup_insert. case_decide; [eauto | exact Hp].
    + intros p child Hc.
      destruct (H3 p child Hc) as [Hc'|(name & qual & cls & Hin & Hn & Hq & ->)].
      * rewrite lookup_insert in Hc'. case_decide as Hpath.
        -- injection Hc' as <-. subst p. right.
           exists mod_name, mod_class_name, mod_class.
           split; [apply elem_of_cons; now left|]. auto.
        -- now left.
      * right. exists name, qual, cls. split; [apply elem_of_cons; now right|]. auto.
    + intros name qual Hin. apply elem_of_cons in Hin as [[= -> ->]|Hin].
      * destruct (load_modules_keeps_modules _ _ _ _ Hr path mod_class)
          as [cls' Hc']; [apply lookup_insert_eq|].
        exists path, cls'. split; [exact He | exact Hc'].
      * apply (H4 name qual Hin).
Qed.

(** X13.  The children of a tree that [WebApp(config, controller)] has
    built.  Every configured module has a child under the UTF-8 bytes of
    its name, a module node that holds the tree itself as its parent.
    Every module node of the tree holds the tree as its parent and has
    the class that [get_object] gives for a configured module whose name
    encodes to its path.  A path that no configured name encodes to has
    no child, except the empty path, which then has the home page; and
    the empty path always has a child. *)
Theorem webapp_children cfg ctrl n tree n' :
  WebApp_init cfg ctrl n = (Ret tree, n') ->
  (forall name qual, (name, qual) ∈ web_modules cfg ->
     exists p cls,
       encode name = Ret p
       /\ children tree !! p = Some (ModuleNode cls (oid tree)))
  /\ (forall p cls owner, children tree !! p = Some (ModuleNode cls owner) ->
        owner = oid tree
        /\ exists name qual,
             (name, qual) ∈ web_modules cfg /\ encode name = Ret p
             /\ get_object qual = Ret cls)
  /\ (forall p, (forall name qual, (name, qual) ∈ web_modules cfg ->
                                   encode name <> Ret p) ->
        children tree !! p
        = if bool_decide (p = EmptyString) then Some HomeNode else None)
  /\ is_Some (children tree !! EmptyString).
Proof.
  rewrite WebApp_init_eq.
  destruct (load_modules n (web_modules cfg) (putChild EmptyString HomeNode ∅))
    as [r|e] eqn:Hl; [|discriminate].
  intros [= <- <-]. cbn [children oid].
  destruct (load_modules_children _ _ _ _ Hl) as (H1 & H2 & H3 & H4).
  unfold putChild in *.
  split; [exact H4|]. split; [|split].
  - intros p cls owner Hc.
    destruct (H3 p _ Hc) as [Hc'|(name & qual & cls' & Hin & Hn & Hq & [= -> ->])].
    + rewrite lookup_insert in Hc'. case_decide; [discriminate|].
      rewrite lookup_empty in Hc'. discriminate.
    + split; [reflexivity|]. eauto.
  - intros p Hp. rewrite (H1 p Hp), lookup_insert.
    case_decide as Hd.
    + subst p. now rewrite bool_decide_eq_true_2.
    + rewrite lookup_empty. rewrite bool_decide_eq_false_2; [reflexivity|congruence].
  - apply H2. rewrite lookup_insert_eq. eauto.
Qed.

(** X14.  A module that cannot be loaded (its class is not found, or its
    name has no UTF-8 form) makes [WebApp(config, controller)] fail.
    With the [auth] flag off [get_web_app] then fails with that error.
    With the flag on [get_web_app] succeeds all the same, having built
    no tree, and it is every login that fails with that error. *)
Theorem broken_module_surfaces_at_login cfg ctrl n n' e :
  WebApp_init cfg ctrl n = (Raise e, n') ->
  (web_auth cfg = false -> get_web_app cfg ctrl n = (Raise e, n'))
  /\ (web_auth cfg = true ->
      exists portal factories,
        get_web_app cfg ctrl n = (Ret (HTTPAuthSessionWrapper portal factories), n)
        /\ forall avatar_id k, login portal avatar_id k = (Raise e, S k)).
Proof.
  intros Hi. split.
  - intros Ha. unfold get_web_app, bind. now rewrite Ha, Hi.
  - intros Ha. do 2 eexists. split.
    + unfold get_web_app. rewrite Ha. reflexivity.
    + intros avatar_id k. unfold login, requestAvatar.
      cbn [existsb is_IResource orb realm realm_config realm_controller].
      unfold bind.
      pose proof (WebApp_init_routing cfg cfg ctrl ctrl k n eq_refl) as H.
      rewrite Hi in H. rewrite WebApp_init_eq in H |- *.
      destruct (load_modules k _ _); [destruct H | now subst].
Qed.

(** X15.  [requestAvatar] gives every principal the same thing: for
    interfaces that include [IResource], wherever it stands among them,
    the result does not depend on the avatar id or on the mind; without
    [IResource] it raises NotImplementedError and builds nothing. *)
Theorem request_avatar_any_principal self id1 id2 mind1 mind2 interfaces1 interfaces2 n :
  (IResource ∈ interfaces1 -> IResource ∈ interfaces2 ->
   requestAvatar self id1 mind1 interfaces1 n
   = requestAvatar self id2 mind2 interfaces2 n)
  /\ (IResource ∉ interfaces1 ->
      requestAvatar self id1 mind1 interfaces1 n = (Raise NotImplementedError, n)).
Proof.
  assert (forall l, existsb is_IResource l = true <-> IResource ∈ l) as Hex.
  { intros l. rewrite existsb_exists. split.
    - intros ([|?] & Hin & Hi); [|discriminate]. now apply list_elem_of_In.
    - intros Hin. exists IResource. split; [now apply list_elem_of_In | reflexivity]. }
  unfold requestAvatar. split.
  - intros H1 H2. apply Hex in H1, H2. now rewrite H1, H2.
  - intros H1. destruct (existsb is_IResource interfaces1) eqn:E; [|reflexivity].
    apply Hex in E. contradiction.
Qed.

(** *** What the asynchronous handlers hand to the Controller *)

(** X16.  A POST to PushProject with a [name] that is UTF-8 and an
    [archive]: by the end of the request the Controller has been called
    exactly once, with the decoded first value of [name] and the first
    value of [archive] byte for byte as it came (it is never decoded).
    A POST to CancelJob with an [id] that is UTF-8: the Controller has
    been called exactly once, with the decoded first value of [id]. *)
Theorem async_controller_call self request w :
  suspended w = [] ->
  (forall n a name,
     args request !! "name" = Some n ->
     decode_utf8 n.1 = Some name ->
     args request !! "archive" = Some a ->
     calls (lifecycle (PushProject_render_POST self) request w).2
     = calls w ++ [CPushProject name a.1])
  /\ (forall i job_id,
        args request !! "id" = Some i ->
        decode_utf8 i.1 = Some job_id ->
        calls (lifecycle (CancelJob_render_POST self) request w).2
        = calls w ++ [CCancelJob job_id]).
Proof.
  intros Hs. split.
  - intros n a name Hn Hd Ha.
    change (PushProject_render_POST self) with (async_handler OpPushProject self).
    rewrite (lifecycle_async OpPushProject self request w
               (CPushProject name a.1)
               (push_project (controller (parent self)) name a.1)).
    + destruct (outcome _); reflexivity.
    + unfold async_call. now rewrite Hn, Ha, Hd.
    + exact Hs.
  - intros i job_id Hi Hd.
    change (CancelJob_render_POST self) with (async_handler OpCancelJob self).
    rewrite (lifecycle_async OpCancelJob self request w
               (CCancelJob job_id)
               (cancel_job (controller (parent self)) job_id)).
    + destruct (outcome _); reflexivity.
    + unfold async_call. now rewrite Hi, Hd.
    + exact Hs.
Qed.

(** *** UTF-8: what [encode] produces, [decode] reads back *)

Local Open Scope N_scope.

Ltac divmod := zify; Z.quot_rem_to_equations; Z.div_mod_to_equations; lia.

Lemma land_shiftl_low x m b : b < 2 ^ m -> N.land (N.shiftl x m) b = 0.
Proof.
  intros Hb. apply N.bits_inj. intros n. rewrite N.land_spec, N.bits_0.
  destruct (N.lt_ge_cases n m) as [Hn|Hn].
  - now rewrite N.shiftl_spec_low.
  - rewrite andb_false_iff. right.
    destruct (N.eq_dec b 0) as [->|Hb0]; [apply N.bits_0|].
    apply N.bits_above_log2. apply N.log2_lt_pow2; [lia|].
    apply N.lt_le_trans with (2 ^ m); [exact Hb|]. now apply N.pow_le_mono_r.
Qed.

Lemma lor_shiftl_add x m b : b < 2 ^ m -> N.lor (N.shiftl x m) b = x * 2 ^ m + b.
Proof.
  intros Hb. rewrite <- N.lxor_lor by now apply land_shiftl_low.
  rewrite <- N.add_nocarry_lxor by now apply land_shiftl_low.
  now rewrite N.shiftl_mul_pow2.
Qed.

Lemma lor_192 q : q < 64 -> N.lor 192 q = 192 + q.
Proof. intros H. change 192 with (N.shiftl 3 6). rewrite lor_shiftl_add; [reflexivity|exact H]. Qed.
Lemma lor_128 q : q < 64 -> N.lor 128 q = 128 + q.
Proof. intros H. change 128 with (N.shiftl 2 6). rewrite lor_shiftl_add; [reflexivity|exact H]. Qed.
Lemma lor_224 q : q < 16 -> N.lor 224 q = 224 + q.
Proof. intros H. change 224 with (N.shiftl 14 4). rewrite lor_shiftl_add; [reflexivity|exact H]. Qed.
Lemma lor_240 q : q < 8 -> N.lor 240 q = 240 + q.
Proof. intros H. change 240 with (N.shiftl 30 3). rewrite lor_shiftl_add; [reflexivity|exact H]. Qed.

Lemma low6_mod b : low6 b = b mod 64.
Proof. unfold low6. change 63 with (N.ones 6). now rewrite N.land_ones. Qed.


Lemma land_31 b : N.land b 31 = b mod 32.
Proof. change 31 with (N.ones 5). now rewrite N.land_ones. Qed.
Lemma land_15 b : N.land b 15 = b mod 16.
Proof. change 15 with (N.ones 4). now rewrite N.land_ones. Qed.
Lemma land_7 b : N.land b 7 = b mod 8.
Proof. change 7 with (N.ones 3). now rewrite N.land_ones. Qed.

Lemma leb_and lo hi b : lo <= b <= hi -> ((lo <=? b) && (b <=? hi)) = true.
Proof. intros [H1 H2]. apply andb_true_iff. split; now apply N.leb_le. Qed.

Lemma leb_and_false lo hi b : b < lo \/ hi < b -> ((lo <=? b) && (b <=? hi)) = false.
Proof.
  intros H. apply andb_false_iff.
  destruct H; [left; now apply N.leb_gt | right; now apply N.leb_gt].
Qed.

Lemma round_trip_1 c : c < 128 -> point_round_trip c = true.
Proof.
  intros Hc. unfold point_round_trip, utf8_of_point.
  rewrite (proj2 (N.ltb_lt c 128)) by lia.
  cbn [fmap list_fmap]. unfold byte_of. rewrite N_ascii_embedding by lia.
  cbn [utf8_points]. rewrite (proj2 (N.ltb_lt c 128)) by lia.
  cbn. apply N.eqb_refl.
Qed.

Lemma round_trip_2 c : 128 <= c < 2048 -> point_round_trip c = true.
Proof.
  intros Hc. unfold point_round_trip, utf8_of_point.
  rewrite (proj2 (N.ltb_ge c 128)) by lia.
  rewrite (proj2 (N.ltb_lt c 2048)) by lia.
  cbn [fmap list_fmap]. unfold byte_of.
  rewrite low6_mod, N.shiftr_div_pow2. change (2 ^ 6) with 64.
  rewrite lor_192 by divmod. rewrite lor_128 by divmod.
  rewrite !N_ascii_embedding by divmod.
  cbn [utf8_points].
  rewrite (proj2 (N.ltb_ge (192 + c / 64) 128)) by divmod.
  rewrite (leb_and 194 223) by divmod.
  unfold continuation. rewrite (leb_and 128 191) by divmod.
  cbn [fmap option_fmap option_map].
  apply N.eqb_eq.
  rewrite low6_mod, land_31.
  rewrite lor_shiftl_add by (change (2^6) with 64; divmod).
  change (2 ^ 6) with 64. divmod.
Qed.

Lemma round_trip_3 c :
  2048 <= c < 65536 -> c < 55296 \/ 57343 < c -> point_round_trip c = true.
Proof.
  intros Hc Hs. unfold point_round_trip, utf8_of_point.
  rewrite (proj2 (N.ltb_ge c 128)) by lia.
  rewrite (proj2 (N.ltb_ge c 2048)) by lia.
  rewrite (proj2 (N.ltb_lt c 65536)) by lia.
  rewrite (leb_and_false 55296 57343) by lia.
  cbn [fmap list_fmap]. unfold byte_of.
  rewrite !low6_mod, !N.shiftr_div_pow2.
  change (2 ^ 6) with 64. change (2 ^ 12) with 4096.
  rewrite lor_224 by divmod. rewrite !lor_128 by divmod.
  rewrite !N_ascii_embedding by divmod.
  cbn [utf8_points]. cbv zeta.
  rewrite (proj2 (N.ltb_ge (224 + c / 4096) 128)) by divmod.
  rewrite (leb_and_false 194 223) by divmod.
  rewrite (leb_and 224 239) by divmod.
  assert (continuation (if 224 + c / 4096 =? 224 then 160 else 128)
            (if 224 + c / 4096 =? 237 then 159 else 191)
            (128 + (c / 64) mod 64)
          && continuation 128 191 (128 + c mod 64) = true) as ->.
  { unfold continuation.
    destruct (N.eqb_spec (224 + c / 4096) 224), (N.eqb_spec (224 + c / 4096) 237);
      rewrite !leb_and by divmod; reflexivity. }
  cbn [fmap option_fmap option_map].
  apply N.eqb_eq.
  rewrite !low6_mod, land_15.
  rewrite (lor_shiftl_add _ 6) by (change (2^6) with 64; divmod).
  rewrite (lor_shiftl_add _ 12) by (change (2^6) with 64; change (2^12) with 4096; divmod).
  change (2 ^ 6) with 64. change (2 ^ 12) with 4096. divmod.
Qed.

Lemma round_trip_4 c : 65536 <= c < 1114112 -> point_round_trip c = true.
Proof.
  intros Hc. unfold point_round_trip, utf8_of_point.
  rewrite (proj2 (N.ltb_ge c 128)) by lia.
  rewrite (proj2 (N.ltb_ge c 2048)) by lia.
  rewrite (proj2 (N.ltb_ge c 65536)) by lia.
  rewrite (proj2 (N.ltb_lt c 1114112)) by lia.
  cbn [fmap list_fmap]. unfold byte_of.
  rewrite !low6_mod, !N.shiftr_div_pow2.
  change (2 ^ 6) with 64. change (2 ^ 12) with 4096. change (2 ^ 18) with 262144.
  rewrite lor_240 by divmod. rewrite !lor_128 by divmod.
  rewrite !N_ascii_embedding by divmod.
  cbn [utf8_points]. cbv zeta.
  rewrite (proj2 (N.ltb_ge (240 + c / 262144) 128)) by divmod.
  rewrite (leb_and_false 194 223) by divmod.
  rewrite (leb_and_false 224 239) by divmod.
  rewrite (leb_and 240 244) by divmod.
  assert (continuation (if 240 + c / 262144 =? 240 then 144 else 128)
            (if 240 + c / 262144 =? 244 then 143 else 191)
            (128 + (c / 4096) mod 64)
          && continuation 128 191 (128 + (c / 64) mod 64)
          && continuation 128 191 (128 + c mod 64) = true) as ->.
  { unfold continuation.
    destruct (N.eqb_spec (240 + c / 262144) 240), (N.eqb_spec (240 + c / 262144) 244);
      rewrite !leb_and by divmod; reflexivity. }
  cbn [fmap option_fmap option_map].
  apply N.eqb_eq.
  rewrite !low6_mod, land_7.
  rewrite (lor_shiftl_add _ 6) by (change (2^6) with 64; divmod).
  rewrite (lor_shiftl_add _ 12) by (change (2^6) with 64; change (2^12) with 4096; divmod).
  rewrite (lor_shiftl_add _ 18)
    by (change (2^6) with 64; change (2^12) with 4096; change (2^18) with 262144; divmod).
  change (2 ^ 6) with 64. change (2 ^ 12) with 4096. change (2 ^ 18) with 262144.
  divmod.
Qed.

Lemma point_round_trip_all c : point_round_trip c = true.
Proof.
  destruct (N.lt_ge_cases c 128); [now apply round_trip_1|].
  destruct (N.lt_ge_cases c 2048); [now apply round_trip_2|].
  destruct (N.lt_ge_cases c 65536).
  - destruct (N.lt_ge_cases c 55296); [apply round_trip_3; lia|].
    destruct (N.lt_ge_cases 57343 c); [apply round_trip_3; lia|].
    unfold point_round_trip, utf8_of_point.
    rewrite (proj2 (N.ltb_ge c 128)), (proj2 (N.ltb_ge c 2048)),
      (proj2 (N.ltb_lt c 65536)), (leb_and 55296 57343) by lia.
    reflexivity.
  - destruct (N.lt_ge_cases c 1114112); [apply round_trip_4; lia|].
    unfold point_round_trip, utf8_of_point.
    rewrite !(proj2 (N.ltb_ge _ _)) by lia. reflexivity.
Qed.

Local Close Scope N_scope.

Lemma fmap_cons_nil (x : N) (o : option pystr) : cons x <$> o <> Some [].
Proof. destruct o; discriminate. Qed.

Lemma utf8_points_nil l : utf8_points l = Some [] -> l = [].
Proof.
  destruct l as [|b0 t]; [reflexivity|]. cbn [utf8_points]. intros H. exfalso.
  destruct (b0 <? 128)%N; [now apply fmap_cons_nil in H|].
  destruct ((194 <=? b0) && (b0 <=? 223))%N.
  { destruct t as [|b1 t1]; [discriminate|].
    destruct (continuation 128 191 b1); [now apply fmap_cons_nil in H|discriminate]. }
  destruct ((224 <=? b0) && (b0 <=? 239))%N.
  { destruct t as [|b1 [|b2 t2]]; [discriminate|discriminate|].
    destruct (_ && _); [now apply fmap_cons_nil in H|discriminate]. }
  destruct ((240 <=? b0) && (b0 <=? 244))%N; [|discriminate].
  destruct t as [|b1 [|b2 [|b3 t3]]]; [discriminate|discriminate|discriminate|].
  destruct (_ && _); [now apply fmap_cons_nil in H|discriminate].
Qed.

(** A sequence that decodes to one code point is read in the same way
    when more bytes follow it. *)
Lemma utf8_points_one bs c rest :
  utf8_points bs = Some [c] ->
  utf8_points (bs ++ rest) = cons c <$> utf8_points rest.
Proof.
  assert (forall t (x : N), cons x <$> utf8_points t = Some [c] -> x = c /\ t = [])
    as Hone.
  { intros t x H. destruct (utf8_points t) as [l|] eqn:Ht; [|discriminate].
    cbn in H. injection H as -> ->. split; [reflexivity | now apply utf8_points_nil]. }
  destruct bs as [|b0 t]; [discriminate|].
  cbn [utf8_points app].
  destruct (b0 <? 128)%N.
  { intros H. apply Hone in H as [-> ->]. reflexivity. }
  destruct ((194 <=? b0) && (b0 <=? 223))%N.
  { destruct t as [|b1 t1]; [discriminate|]. cbn [app].
    destruct (continuation 128 191 b1); [|discriminate].
    intros H. apply Hone in H as [-> ->]. reflexivity. }
  destruct ((224 <=? b0) && (b0 <=? 239))%N.
  { destruct t as [|b1 [|b2 t2]]; [discriminate|discriminate|]. cbn [app].
    destruct (_ && _); [|discriminate].
    intros H. apply Hone in H as [-> ->]. reflexivity. }
  destruct ((240 <=? b0) && (b0 <=? 244))%N; [|discriminate].
  destruct t as [|b1 [|b2 [|b3 t3]]]; [discriminate|discriminate|discriminate|].
  cbn [app]. destruct (_ && _); [|discriminate].
  intros H. apply Hone in H as [-> ->]. reflexivity.
Qed.

Lemma utf8_bytes_round_trip s l :
  utf8_bytes s = Some l ->
  utf8_points ((fun a => N_of_ascii a) <$> l) = Some s.
Proof.
  revert l. induction s as [|c s IH]; intros l; cbn [utf8_bytes].
  - intros [= <-]. reflexivity.
  - pose proof (point_round_trip_all c) as Hc. unfold point_round_trip in Hc.
    destruct (utf8_of_point c) as [bs|]; [|discriminate].
    destruct (utf8_bytes s) as [ls|]; [|discriminate].
    intros [= <-]. rewrite fmap_app.
    destruct (utf8_points ((fun a => N_of_ascii a) <$> bs)) as [[|c' [|? ?]]|] eqn:Hb;
      try discriminate.
    apply N.eqb_eq in Hc. subst c'.
    rewrite (utf8_points_one _ _ _ Hb), (IH ls eq_refl). reflexivity.
Qed.

(** X17.  A [str] that has a UTF-8 encoding decodes from it to itself:
    [s.encode('utf-8').decode('utf-8') == s].  So an argument sent as
    the UTF-8 bytes of a text reaches the handler as that text, and the
    path of a configured module decodes to its name. *)
Theorem decode_of_encode s b :
  encode_utf8 s = Some b -> decode_utf8 b = Some s.
Proof.
  unfold encode_utf8, decode_utf8, byte_values, ascii_text.
  destruct (utf8_bytes s) as [l|] eqn:Hl; [|discriminate].
  intros [= <-]. rewrite list_ascii_of_string_of_list_ascii.
  apply utf8_bytes_round_trip, Hl.
Qed.

End Properties.

#[local] Existing Instance sample.

(** * The properties at work *)

Lemma render_error_path_raises_witness :
  ListProjects_render_GET sample_self no_arguments fresh
  = (Raise (OtherError (text "database is locked")), logged CGetProjects fresh)
  /\ exists w2,
       JsonResource_render (ListProjects_render_GET sample_self) no_arguments fresh
       = (Raise (AttributeError (text "'int' object has no attribute 'splitlines'")),
          w2)
       /\ code w2 = 400
       /\ written w2 = [] /\ finished w2 = 0%nat.
Proof.
  split; [reflexivity|].
  destruct (render_error_path_raises (ListProjects_render_GET sample_self)
              no_arguments fresh _ _ eq_refl)
    as (w2 & H & Hc & _ & _ & Hw & Hf & _).
  exists w2. split; [exact H|]. split; [exact Hc|]. split; [exact Hw | exact Hf].
Defined.

Lemma success_path_raises_witness :
  sync_handler OpScheduleJob sample_self schedule_request fresh
  = (Ret (PDict [(text "identifier", PStr (text "abc123"))]),
     logged (CScheduleJob (text "p1") (text "s1") (text "now")) fresh)
  /\ exists w2,
       JsonResource_render (sync_handler OpScheduleJob sample_self)
         schedule_request fresh
       = (Raise (AttributeError (text "'int' object has no attribute 'splitlines'")),
          w2)
       /\ code w2 = 400
       /\ calls w2 = [CScheduleJob (text "p1") (text "s1") (text "now")].
Proof.
  split; [reflexivity|].
  destruct (success_path_raises OpScheduleJob sample_self
              schedule_request fresh _ _ eq_refl)
    as (fields & w2 & _ & _ & Hr & Hc & _ & _ & Hcalls).
  exists w2. split; [exact Hr|]. split; [exact Hc | exact Hcalls].
Defined.

Lemma async_path_parts_from_render_witness :
  async_call OpPushProject sample_self push_request
  = Some (CPushProject (text "proj") "PK", Ret (FiresLater (Ret spiders_AB)))
  /\ suspended fresh = []
  /\ exists wg wa,
       JsonResource_render
         (handler_with_outcome (async_fields OpPushProject) (Ret spiders_AB))
         push_request fresh
       = (Raise (AttributeError (text "'int' object has no attribute 'splitlines'")),
          wg)
       /\ lifecycle (async_handler OpPushProject sample_self) push_request fresh
          = (Ret (Unfinished NOT_DONE_YET), wa)
       /\ written wa = [] /\ finished wa = 0%nat
       /\ code wg = 400
       /\ code wa = 200.
Proof.
  split; [reflexivity|]. split; [reflexivity|].
  destruct (async_path_parts_from_render OpPushProject sample_self push_request
              fresh _ _ eq_refl eq_refl)
    as (wg & wa & Hg & Hl & _ & _ & Hw & Hf & _ & _ & Hcg & Hca).
  exists wg, wa. repeat split; assumption.
Defined.

Lemma list_jobs_alternatives_witness :
  (exists names,
     ListJobs_render_GET sample_self no_arguments fresh
     = (Raise (MissingArgument names), fresh))
  /\ (exists out,
        ListJobs_render_GET sample_self (both_request "RUNNING" "zzz") fresh
        = (out, logged (CGetJobs RUNNING) fresh)
        /\ out = Ret (PDict [(text "jobs", PList [sample_to_dict job1])]))
  /\ (exists out,
        ListJobs_render_GET sample_self (id_request "abc123") fresh
        = (out, logged (CGetJob (text "abc123")) fresh)
        /\ out = Ret (PDict [(text "jobs", PList [sample_to_dict job1])])).
Proof.
  split; [|split].
  - exact (proj1 (list_jobs_alternatives sample_self no_arguments fresh)
             eq_refl eq_refl).
  - destruct (proj1 (proj2 (list_jobs_alternatives sample_self
                              (both_request "RUNNING" "zzz") fresh))
                (one "RUNNING") (text "RUNNING") RUNNING eq_refl eq_refl eq_refl)
      as (out & H & Hj).
    exists out. split; [exact H | exact (Hj [job1] eq_refl)].
  - destruct (proj2 (proj2 (list_jobs_alternatives sample_self
                              (id_request "abc123") fresh))
                (one "abc123") (text "abc123") eq_refl eq_refl eq_refl)
      as (out & H & Hj).
    exists out. split; [exact H | exact (Hj job1 eq_refl)].
Defined.

Lemma unknown_status_escapes_render_witness :
  args (status_request "UNKNOWN") !! "status" = Some (one "UNKNOWN")
  /\ decode_utf8 "UNKNOWN" = Some (text "UNKNOWN")
  /\ sample_getitem (text "UNKNOWN") = Raise (OtherError (text "'UNKNOWN'"))
  /\ exists w2,
       JsonResource_render (ListJobs_render_GET sample_self)
         (status_request "UNKNOWN") fresh
       = (Raise (AttributeError (text "'int' object has no attribute 'splitlines'")),
          w2)
       /\ code w2 = 400
       /\ calls w2 = [].
Proof.
  split; [reflexivity|]. split; [reflexivity|]. split; [reflexivity|].
  destruct (unknown_status_escapes_render sample_self (status_request "UNKNOWN")
              fresh (one "UNKNOWN") (text "UNKNOWN") _ eq_refl eq_refl eq_refl)
    as (_ & w2 & H & Hc & Hcalls & _).
  exists w2. repeat split; assumption.
Defined.

Lemma status_takes_precedence_over_id_witness :
  args (both_request "RUNNING" "abc123") !! "status" = Some (one "RUNNING")
  /\ args (both_request "RUNNING" "abc123") !! "id" = Some (one "abc123")
  /\ ListJobs_render_GET sample_self (both_request "RUNNING" "abc123") fresh
     = ListJobs_render_GET sample_self
         (without_id (both_request "RUNNING" "abc123")) fresh
  /\ calls (ListJobs_render_GET sample_self
              (both_request "RUNNING" "abc123") fresh).2
     = [CGetJobs RUNNING].
Proof.
  split; [reflexivity|]. split; [reflexivity|].
  destruct (status_takes_precedence_over_id sample_self
              (both_request "RUNNING" "abc123") fresh
              (one "RUNNING") (one "abc123") eq_refl eq_refl)
    as (Heq & _ & new & Hcalls & _ & Hnew).
  split; [exact Heq|].
  rewrite Hcalls, (Hnew (text "RUNNING") RUNNING eq_refl eq_refl). reflexivity.
Defined.

Definition post_without_arguments : Request := {| method := "POST"; args := ∅ |}.

Lemma cancel_job_without_id_never_replies_witness :
  args post_without_arguments !! "id" = None
  /\ suspended fresh = []
  /\ exists wa,
       lifecycle (CancelJob_render_POST sample_self) post_without_arguments fresh
       = (Ret (Unfinished NOT_DONE_YET), wa)
       /\ written wa = []
       /\ finished wa = 0%nat
       /\ code wa = 400
       /\ calls wa = []
       /\ unhandled wa
          = [AttributeError (text "'int' object has no attribute 'splitlines'")].
Proof.
  split; [reflexivity|]. split; [reflexivity|].
  destruct (cancel_job_without_id_never_replies sample_self post_without_arguments
              fresh eq_refl eq_refl)
    as (wa & H & Hw & Hf & Hc & Hcalls & _ & Hu & _).
  exists wa. repeat split; assumption.
Defined.

Lemma get_web_app_two_modes_witness :
  web_auth (with_auth false sample_config) = false
  /\ web_auth sample_config = true
  /\ (exists ungated,
        get_web_app (with_auth false sample_config) sample_controller 0%nat
        = (Ret (Tree ungated), 1%nat)
        /\ routing ungated !! EmptyString = Some None
        /\ routing ungated !! "status.json" = Some (Some Status)
        /\ routing ungated !! "list-jobs.json" = Some (Some ListJobs)
        /\ exists portal tree,
             get_web_app sample_config sample_controller 1%nat
             = (Ret (HTTPAuthSessionWrapper portal
                       [DigestCredentialFactory "md5" "scrapy-do"]), 1%nat)
             /\ checkers portal = [FilePasswordDB (text "auth.db")]
             /\ login portal "alice" 7%nat = (Ret (IResource, tree, NoLogout), 8%nat)
             /\ oid tree = 7%nat
             /\ routing tree = routing ungated).
Proof.
  split; [reflexivity|]. split; [reflexivity|].
  pose proof (proj1 (get_web_app_two_modes (with_auth false sample_config)
                       sample_controller) eq_refl 0%nat) as Hoff.
  destruct (proj2 (get_web_app_two_modes sample_config sample_controller) eq_refl)
    as (portal & Hg & Hch & _ & Hlogin).
  destruct (WebApp_init (with_auth false sample_config) sample_controller 0%nat)
    as [[ungated|e] n'] eqn:Hinit; [|discriminate Hinit].
  injection Hinit as <- <-.
  destruct (Hlogin 0%nat _ _ Hoff "alice" 7%nat) as (tree & Hl & Ho & Hr & _).
  eexists. split; [exact Hoff|]. split; [reflexivity|]. split; [reflexivity|].
  split; [reflexivity|]. exists portal, tree.
  split; [exact (Hg 1%nat)|]. split; [exact Hch|]. split; [exact Hl|].
  split; [exact Ho | exact Hr].
Defined.

Definition cancel_request (id : bytes) : Request :=
  {| method := "POST"; args := {["id" := one id]} |}.

Definition name_only_request : Request :=
  {| method := "POST"; args := {["name" := one "proj"]} |}.

Lemma push_project_missing_argument_witness :
  suspended fresh = []
  /\ args post_without_arguments !! "name" = None
  /\ (exists wa,
        lifecycle (PushProject_render_POST sample_self) post_without_arguments fresh
        = (Ret (Unfinished NOT_DONE_YET), wa)
        /\ code wa = 400 /\ written wa = [] /\ finished wa = 0%nat /\ calls wa = [])
  /\ args name_only_request !! "archive" = None
  /\ (exists wa,
        lifecycle (PushProject_render_POST sample_self) name_only_request fresh
        = (Ret (Unfinished NOT_DONE_YET), wa)
        /\ code wa = 400 /\ written wa = [] /\ finished wa = 0%nat /\ calls wa = []).
Proof.
  split; [reflexivity|]. split; [reflexivity|].
  destruct (push_project_missing_argument sample_self post_without_arguments fresh
              eq_refl (or_introl eq_refl))
    as (wa1 & Hl1 & Hc1 & Hw1 & Hf1 & Hk1 & _).
  destruct (push_project_missing_argument sample_self name_only_request fresh
              eq_refl
              (or_intror (ex_intro _ (one "proj")
                            (ex_intro _ (text "proj")
                               (conj eq_refl (conj eq_refl eq_refl))))))
    as (wa2 & Hl2 & Hc2 & Hw2 & Hf2 & Hk2 & _).
  split; [exists wa1; repeat split; assumption|].
  split; [reflexivity|]. exists wa2; repeat split; assumption.
Defined.

Lemma async_sentinel_before_completion_witness :
  async_call OpPushProject sample_self push_request
  = Some (CPushProject (text "proj") "PK", Ret (FiresLater (Ret spiders_AB)))
  /\ exists w',
       JsonResource_render (async_handler OpPushProject sample_self)
         push_request fresh
       = (Ret (Unfinished NOT_DONE_YET), w')
       /\ written w' = [] /\ finished w' = 0%nat
       /\ length (suspended w') = 1%nat.
Proof.
  split; [reflexivity|].
  destruct (async_sentinel_before_completion OpPushProject sample_self push_request
              fresh _ _ eq_refl) as (g & H).
  eexists. split; [exact H|]. repeat split.
Defined.

Lemma status_of_the_handler_wins_witness :
  NoDup [text "load"; text "status"]
  /\ unpack_over [(text "status", PStr (text "ok"))]
       (PDict [(text "load", PInt 3); (text "status", PStr (text "busy"))])
     = Ret [(text "status", PStr (text "busy")); (text "load", PInt 3)].
Proof.
  assert (NoDup [text "load"; text "status"]) as Hnd.
  { apply NoDup_cons. split; [|apply NoDup_singleton].
    intros H. apply list_elem_of_singleton in H. discriminate H. }
  split; [exact Hnd|].
  exact (status_of_the_handler_wins
           [(text "load", PInt 3); (text "status", PStr (text "busy"))]
           (PStr (text "busy")) Hnd eq_refl).
Defined.

Lemma schedule_job_passes_arguments_witness :
  args schedule_request !! "when" = Some (one "now")
  /\ decode_utf8 "now" = Some (text "now")
  /\ ScheduleJob_render_POST sample_self schedule_request fresh
     = (Ret (PDict [(text "identifier", PStr (text "abc123"))]),
        logged (CScheduleJob (text "p1") (text "s1") (text "now")) fresh).
Proof.
  split; [reflexivity|]. split; [reflexivity|].
  exact (schedule_job_passes_arguments sample_self schedule_request fresh
           (one "p1") (one "s1") (one "now") (text "p1") (text "s1") (text "now")
           eq_refl eq_refl eq_refl eq_refl eq_refl eq_refl).
Defined.

Definition bad_spider_request : Request :=
  {| method := "POST";
     args := {["project" := one "p1"; "spider" := one undecodable;
               "when" := one "now"]} |}.

Lemma schedule_job_undecodable_argument_witness :
  args bad_spider_request !! "spider" = Some (one undecodable)
  /\ decode_utf8 undecodable = None
  /\ exists value,
       decode_utf8 value = None
       /\ ScheduleJob_render_POST sample_self bad_spider_request fresh
          = (Raise (UnicodeDecodeError value), fresh).
Proof.
  split; [reflexivity|]. split; [reflexivity|].
  destruct (schedule_job_undecodable_argument sample_self bad_spider_request fresh
              (one "p1") (one undecodable) (one "now") eq_refl eq_refl eq_refl
              (or_intror (or_introl eq_refl)))
    as (before & value & after & _ & _ & Hd & H).
  exists value. split; [exact Hd | exact H].
Defined.

Definition spiders_request : Request :=
  {| method := "GET"; args := {["project" := one "p1"]} |}.

Lemma list_spiders_echoes_project_witness :
  args spiders_request !! "project" = Some (one "p1")
  /\ decode_utf8 "p1" = Some (text "p1")
  /\ ListSpiders_render_GET sample_self spiders_request fresh
     = (Ret (PDict [(text "project", PStr (text "p1"));
                    (text "spiders", PList [PStr (text "spiderA")])]),
        logged (CGetSpiders (text "p1")) fresh).
Proof.
  split; [reflexivity|]. split; [reflexivity|].
  exact (list_spiders_echoes_project sample_self spiders_request fresh
           (one "p1") (text "p1") eq_refl eq_refl).
Defined.

Lemma webapp_children_witness :
  exists tree,
    WebApp_init sample_config sample_controller 4%nat = (Ret tree, 5%nat)
    /\ children tree !! "status.json" = Some (ModuleNode Status 4)
    /\ children tree !! "list-jobs.json" = Some (ModuleNode ListJobs 4)
    /\ children tree !! EmptyString = Some HomeNode
    /\ children tree !! "cancel-job.json" = None.
Proof.
  eexists. split; [reflexivity|].
  destruct (webapp_children sample_config sample_controller 4%nat _ _ eq_refl)
    as (_ & _ & Hother & _).
  split; [reflexivity|]. split; [reflexivity|]. split.
  - apply (Hother EmptyString).
    intros name qual Hin. unfold sample_config in Hin. cbn [web_modules] in Hin.
    repeat (apply elem_of_cons in Hin as [[= -> ->]|Hin];
            [intros H; vm_compute in H; discriminate H|]).
    now apply not_elem_of_nil in Hin.
  - apply (Hother "cancel-job.json").
    intros name qual Hin. unfold sample_config in Hin. cbn [web_modules] in Hin.
    repeat (apply elem_of_cons in Hin as [[= -> ->]|Hin];
            [intros H; vm_compute in H; discriminate H|]).
    now apply not_elem_of_nil in Hin.
Defined.

Definition broken_config : Config :=
  {| web_auth := true;
     web_auth_db := text "auth.db";
     web_modules := [(text "status.json", text "scrapy_do.webservice.Status");
                     (text "x.json", text "nowhere.Missing")] |}.

Lemma broken_module_surfaces_at_login_witness :
  WebApp_init broken_config sample_controller 0%nat
  = (Raise (OtherError (text "No module named nowhere.Missing")), 1%nat)
  /\ get_web_app (with_auth false broken_config) sample_controller 0%nat
     = (Raise (OtherError (text "No module named nowhere.Missing")), 1%nat)
  /\ exists portal factories,
       get_web_app broken_config sample_controller 0%nat
       = (Ret (HTTPAuthSessionWrapper portal factories), 0%nat)
       /\ login portal "alice" 0%nat
          = (Raise (OtherError (text "No module named nowhere.Missing")), 1%nat).
Proof.
  split; [reflexivity|]. split.
  - exact (proj1 (broken_module_surfaces_at_login (with_auth false broken_config)
                    sample_controller 0%nat 1%nat _ eq_refl) eq_refl).
  - destruct (proj2 (broken_module_surfaces_at_login broken_config
                       sample_controller 0%nat 1%nat _ eq_refl) eq_refl)
      as (portal & factories & Hg & Hl).
    exists portal, factories. split; [exact Hg | exact (Hl "alice" 0%nat)].
Defined.

Definition sample_realm : PublicHTMLRealm :=
  {| realm_config := sample_config; realm_controller := sample_controller |}.

Lemma request_avatar_any_principal_witness :
  requestAvatar sample_realm "alice" PNone [IResource] 3%nat
  = requestAvatar sample_realm "bob" (PInt 7) [OtherInterface "IMailbox"; IResource] 3%nat
  /\ requestAvatar sample_realm "alice" PNone [OtherInterface "IMailbox"] 3%nat
     = (Raise NotImplementedError, 3%nat).
Proof.
  split.
  - apply (request_avatar_any_principal sample_realm "alice" "bob" PNone (PInt 7)
             [IResource] [OtherInterface "IMailbox"; IResource] 3%nat).
    + apply elem_of_cons. now left.
    + apply elem_of_cons. right. apply elem_of_cons. now left.
  - apply (request_avatar_any_principal sample_realm "alice" "alice" PNone PNone
             [OtherInterface "IMailbox"] [] 3%nat).
    intros H. apply list_elem_of_singleton in H. discriminate H.
Defined.

Lemma async_controller_call_witness :
  suspended fresh = []
  /\ calls (lifecycle (PushProject_render_POST sample_self) push_request fresh).2
     = [CPushProject (text "proj") "PK"]
  /\ calls (lifecycle (CancelJob_render_POST sample_self)
              (cancel_request "abc123") fresh).2
     = [CCancelJob (text "abc123")].
Proof.
  split; [reflexivity|].
  destruct (async_controller_call sample_self push_request fresh eq_refl) as [H1 _].
  destruct (async_controller_call sample_self (cancel_request "abc123") fresh eq_refl)
    as [_ H2].
  split.
  - exact (H1 (one "proj") (one "PK") (text "proj") eq_refl eq_refl eq_refl).
  - exact (H2 (one "abc123") (text "abc123") eq_refl eq_refl).
Defined.

(** The euro sign, U+20AC, and its three bytes. *)
Lemma decode_of_encode_witness :
  encode_utf8 [8364%N]
  = Some (String (byte_of 226) (String (byte_of 130) (String (byte_of 172) EmptyString)))
  /\ decode_utf8
       (String (byte_of 226) (String (byte_of 130) (String (byte_of 172) EmptyString)))
     = Some [8364%N].
Proof.
  split; [reflexivity|].
  exact (decode_of_encode [8364%N] _ eq_refl).
Defined.
